(** * shaderLoader: a compute-shader particle system

    A shallow embedding of [Main.cpp]: the particle seeding loop, the
    pointer callback, the shader loading helpers and the frame driver
    ([main]), followed by the properties of the written specification.

    Conventions.
    - [int] values are [Z]; every integer the program computes stays far
      inside the 32-bit range, so no wrap-around is written.
    - [float]/[double] values are the type [float] below: a finite value is
      an exact real number (rounding and overflow are idealised away), and
      the IEEE special values that division by zero creates are kept.
    - Calls into GLFW, GLEW, OpenGL and the standard streams are recorded
      as [Event]s in the order the program issues them; what those
      libraries answer is read from an environment record. *)

From Stdlib Require Import Reals Lra ZArith Lia List String Bool.
Import ListNotations.

(** ** Floating-point values *)

Module Float.

Inductive float : Type :=
| Fin (r : R)           (* a finite value *)
| Inf (negative : bool) (* +inf (false) or -inf (true) *)
| NaN.

Definition Rneg (r : R) : bool := if Rlt_dec r 0 then true else false.
Definition Rzero (r : R) : bool := if Req_dec_T r 0 then true else false.

Definition fneg (a : float) : float :=
  match a with
  | Fin r => Fin (- r)
  | Inf s => Inf (negb s)
  | NaN => NaN
  end.

Definition fadd (a b : float) : float :=
  match a, b with
  | Fin r, Fin s => Fin (r + s)
  | Fin _, Inf s => Inf s
  | Inf s, Fin _ => Inf s
  | Inf s, Inf t => if Bool.eqb s t then Inf s else NaN
  | _, _ => NaN
  end.

Definition fsub (a b : float) : float := fadd a (fneg b).

Definition fmul (a b : float) : float :=
  match a, b with
  | Fin r, Fin s => Fin (r * s)
  | Fin r, Inf s => if Rzero r then NaN else Inf (xorb s (Rneg r))
  | Inf s, Fin r => if Rzero r then NaN else Inf (xorb s (Rneg r))
  | Inf s, Inf t => Inf (xorb s t)
  | _, _ => NaN
  end.

(* A zero divisor is +0 wherever the program divides (an [int] converted
   to [double], or a square root), so x/0 takes the sign of x. *)
Definition fdiv (a b : float) : float :=
  match a, b with
  | Fin r, Fin s =>
      if Rzero s then (if Rzero r then NaN else Inf (Rneg r))
      else Fin (r / s)
  | Fin _, Inf _ => Fin 0
  | Inf s, Fin r => Inf (xorb s (Rneg r))
  | _, _ => NaN
  end.

Definition fsqrt (a : float) : float :=
  match a with
  | Fin r => if Rneg r then NaN else Fin (sqrt r)
  | Inf false => Inf false
  | _ => NaN
  end.

(* int -> double conversion *)
Definition of_int (z : Z) : float := Fin (IZR z).

End Float.
Import Float.

(** ** The part of GLM the program uses *)

Module glm.

Record vec2 : Type := mkvec2 { x : float; y : float }.
Record vec4 : Type := mkvec4 { r : float; g : float; b : float; a : float }.

(* operator*(vec2, float) *)
Definition scale (v : vec2) (s : float) : vec2 :=
  mkvec2 (fmul (x v) s) (fmul (y v) s).

Definition dot (u v : vec2) : float :=
  fadd (fmul (x u) (x v)) (fmul (y u) (y v)).

Definition inversesqrt (s : float) : float := fdiv (Fin 1) (fsqrt s).

(* glm::normalize(v) is v * inversesqrt(dot(v, v)) *)
Definition normalize (v : vec2) : vec2 := scale v (inversesqrt (dot v v)).

Definition length (v : vec2) : float := fsqrt (dot v v).

End glm.

(** ** Constants and the particle record *)

Definition NUM_PARTICLES : Z := 1000.
Definition WORK_GROUP_SIZE : Z := 10.

Record Particle : Type := mkParticle {
  position : glm.vec2;
  velocity : glm.vec2;
  color : glm.vec4;
  age : float;
  lifeTime : float
}.

Definition set_position (p : Particle) (v : glm.vec2) : Particle :=
  mkParticle v (velocity p) (color p) (age p) (lifeTime p).
Definition set_velocity (p : Particle) (v : glm.vec2) : Particle :=
  mkParticle (position p) v (color p) (age p) (lifeTime p).
Definition set_color (p : Particle) (c : glm.vec4) : Particle :=
  mkParticle (position p) (velocity p) c (age p) (lifeTime p).
Definition set_age (p : Particle) (t : float) : Particle :=
  mkParticle (position p) (velocity p) (color p) t (lifeTime p).
Definition set_lifeTime (p : Particle) (t : float) : Particle :=
  mkParticle (position p) (velocity p) (color p) (age p) t.

(** ** The random engine

    [std::mt19937 eng(rd())] is seeded from [std::random_device]; what the
    program observes of it is the sequence of canonical variates (numbers
    in [0,1)) the distributions draw.  The sequence belongs to the run, not
    to the program: it is the [variates] field, and [drawn] counts the
    draws made so far. *)

Record mt19937 : Type := mkEngine { variates : nat -> R; drawn : nat }.

Definition canonical (eng : mt19937) : Prop :=
  forall n, (0 <= variates eng n < 1)%R.

Definition generate_canonical (eng : mt19937) : R * mt19937 :=
  (variates eng (drawn eng), mkEngine (variates eng) (S (drawn eng))).

(* std::uniform_real_distribution(lo, hi)(eng) *)
Definition uniform_real_distribution (lo hi : R) (eng : mt19937)
  : float * mt19937 :=
  let (u, eng) := generate_canonical eng in
  (Fin (u * (hi - lo) + lo), eng).

Definition distr := uniform_real_distribution (-1) 1.
Definition colorDistr := uniform_real_distribution 0 1.
Definition lifeTimeDistr := uniform_real_distribution 1.5 3.

(** ** Particle seeding (the loop of lines 75-89) *)

Definition randomSpeedFactor : float := fadd (Fin 0.2) (Fin 0.005).

(* One iteration of the loop body on the element [particle].  The three
   colour draws are arguments of one constructor call; C++ leaves their
   order open, and they come from the same distribution. *)
Definition init_particle (eng : mt19937) (particle : Particle)
  : Particle * mt19937 :=
  let (dirX, eng) := distr eng in
  let (dirY, eng) := distr eng in
  let direction := glm.normalize (glm.mkvec2 dirX dirY) in
  let particle := set_position particle (glm.mkvec2 (Fin 20) (Fin 20)) in
  let particle := set_velocity particle (glm.scale direction randomSpeedFactor) in
  let (cr, eng) := colorDistr eng in
  let (cg, eng) := colorDistr eng in
  let (cb, eng) := colorDistr eng in
  let particle := set_color particle (glm.mkvec4 cr cg cb (Fin 1)) in
  let particle := set_age particle (Fin 0) in
  let (life, eng) := lifeTimeDistr eng in
  let particle := set_lifeTime particle life in
  (particle, eng).

(* for (auto& particle : particles) { ... } *)
Fixpoint init_particles (eng : mt19937) (particles : list Particle)
  : list Particle * mt19937 :=
  match particles with
  | [] => ([], eng)
  | particle :: rest =>
      let (particle, eng) := init_particle eng particle in
      let (rest, eng) := init_particles eng rest in
      (particle :: rest, eng)
  end.

(* std::vector<Particle> particles(NUM_PARTICLES): value-initialised. *)
Definition zero2 : glm.vec2 := glm.mkvec2 (Fin 0) (Fin 0).
Definition zero4 : glm.vec4 := glm.mkvec4 (Fin 0) (Fin 0) (Fin 0) (Fin 0).
Definition zeroParticle : Particle := mkParticle zero2 zero2 zero4 (Fin 0) (Fin 0).
Definition particles0 : list Particle :=
  repeat zeroParticle (Z.to_nat NUM_PARTICLES).

(** ** Calls into the platform, in program order *)

Inductive ShaderType : Type :=
  GL_COMPUTE_SHADER | GL_VERTEX_SHADER | GL_FRAGMENT_SHADER.

Inductive BufferTarget : Type :=
  GL_SHADER_STORAGE_BUFFER | GL_ARRAY_BUFFER
| GL_COPY_READ_BUFFER | GL_COPY_WRITE_BUFFER.

Inductive Usage : Type := GL_DYNAMIC_DRAW | GL_STREAM_DRAW.

Inductive Event : Type :=
(* GLFW / GLEW *)
| glfwInit
| glfwCreateWindow (width height : Z) (title : string)
| glfwMakeContextCurrent (window : Z)
| glewInit
| glfwSetCursorPosCallback (window : Z)
| glfwWindowShouldClose (window : Z)
| glfwSwapBuffers (window : Z)
| glfwPollEvents
| glfwGetFramebufferSize (window : Z)
| glfwTerminate
(* standard library *)
| cerr (msg : string)
| cerr_log (msg : string) (infoLog : string)
| cout_particle (i : Z) (p : Particle)
| cout_mouse (pos : glm.vec2)
| clock_now
| ifstream_open (path : string)
(* shaders and programs *)
| glCreateShader (type : ShaderType)
| glShaderSource (shader : Z) (src : string)
| glCompileShader (shader : Z)
| glGetShaderiv (shader : Z)
| glGetShaderInfoLog (shader : Z)
| glCreateProgram
| glAttachShader (program shader : Z)
| glLinkProgram (program : Z)
| glGetProgramiv (program : Z)
| glGetProgramInfoLog (program : Z)
| glUseProgram (program : Z)
| glGetUniformLocation (program : Z) (name : string)
| glUniform2f (location : Z) (v0 v1 : float)
| glUniform1f (location : Z) (v0 : float)
(* buffers and vertex arrays *)
| glGenBuffers
| glGenVertexArrays
| glBindBuffer (target : BufferTarget) (buffer : Z)
| glBufferData (target : BufferTarget) (size : Z)
    (data : option (list Particle)) (usage : Usage)
| glBindVertexArray (array : Z)
| glEnableVertexAttribArray (index : Z)
| glVertexAttribPointer (index size stride offset : Z)
| glMapBuffer (target : BufferTarget)
| glUnmapBuffer (target : BufferTarget)
| glCopyBufferSubData (readTarget writeTarget : BufferTarget)
    (readOffset writeOffset size : Z)
| glBindBufferBase (target : BufferTarget) (index buffer : Z)
(* drawing and dispatch *)
| glEnableBlend
| glBlendFunc
| glClear
| glPointSize (size : float)
| glDispatchCompute (num_groups_x num_groups_y num_groups_z : Z)
| glDrawArrays (first count : Z)
| glGetError
| glMemoryBarrier
(* cleanup *)
| glDeleteBuffers (buffer : Z)
| glDeleteVertexArrays (array : Z)
| glDeleteShader (shader : Z)
| glDeleteProgram (program : Z).

(** ** What the platform answers *)

Inductive Uniform : Type :=
| U1f (v0 : float)
| U2f (v0 v1 : float).

Definition Uniforms : Type := Z -> option Uniform.

Definition set_uniform (u : Uniforms) (location : Z) (v : Uniform) : Uniforms :=
  fun l => if Z.eqb l location then Some v else u l.

(* One cursor-position event delivered by glfwPollEvents, with the
   framebuffer size glfwGetFramebufferSize reports inside the callback. *)
Record CursorEvent : Type := mkCursorEvent {
  xpos : float;
  ypos : float;
  fb_width : Z;
  fb_height : Z
}.

(* The answers of one iteration of the main loop. *)
Record FrameEnv : Type := mkFrameEnv {
  now : float;                    (* high_resolution_clock::now(), seconds *)
  map_ok : bool;                  (* glMapBuffer returned a non-null pointer *)
  mousePosLoc_result : Z;         (* glGetUniformLocation(.., "mousePos") *)
  deltaTimeLoc_result : Z;        (* glGetUniformLocation(.., "deltaTime") *)
  cursor_events : list CursorEvent
}.

Record Env : Type := mkEnv {
  glfwInit_result : bool;
  glfwCreateWindow_result : option Z;       (* None: NULL *)
  glewInit_ok : bool;                       (* glewInit() == GLEW_OK *)
  start_time : float;
  entropy : nat -> R;                       (* see [mt19937] *)
  files : string -> option string;          (* None: cannot be opened *)
  glCreateShader_result : ShaderType -> Z;
  computeProgram_name : Z;
  renderProgram_name : Z;
  particleSSBO_name : Z;
  particleVAO_name : Z;
  particleVBO_name : Z;
  (* GL_COMPILE_STATUS / GL_LINK_STATUS of an object; None: the query
     fails and leaves the output variable as it was *)
  compile_status : Z -> option bool;
  link_status : Z -> option bool;
  shader_infoLog : Z -> string;
  program_infoLog : Z -> string;
  uninitialised : bool;                     (* what an unset [success] holds *)
  (* the compute program run by glDispatchCompute on the bound buffer *)
  kernel : Uniforms -> Z -> list Particle -> list Particle
}.

(** ** Program state

    The globals [particles] and [mousePos], the locals of [main] that live
    across iterations, and the contents of the two GPU buffers and of the
    compute program's uniforms. *)

Record World : Type := mkWorld {
  particles : list Particle;
  mousePos : glm.vec2;
  lastFrameTime : float;
  deltaTime : float;
  ssbo : list Particle;
  vbo : option (list Particle);   (* None: allocated, never written *)
  uniforms : Uniforms
}.

Definition set_particles (w : World) (v : list Particle) : World :=
  mkWorld v (mousePos w) (lastFrameTime w) (deltaTime w) (ssbo w) (vbo w) (uniforms w).
Definition set_mousePos (w : World) (v : glm.vec2) : World :=
  mkWorld (particles w) v (lastFrameTime w) (deltaTime w) (ssbo w) (vbo w) (uniforms w).
Definition set_lastFrameTime (w : World) (v : float) : World :=
  mkWorld (particles w) (mousePos w) v (deltaTime w) (ssbo w) (vbo w) (uniforms w).
Definition set_deltaTime (w : World) (v : float) : World :=
  mkWorld (particles w) (mousePos w) (lastFrameTime w) v (ssbo w) (vbo w) (uniforms w).
Definition set_ssbo (w : World) (v : list Particle) : World :=
  mkWorld (particles w) (mousePos w) (lastFrameTime w) (deltaTime w) v (vbo w) (uniforms w).
Definition set_vbo (w : World) (v : option (list Particle)) : World :=
  mkWorld (particles w) (mousePos w) (lastFrameTime w) (deltaTime w) (ssbo w) v (uniforms w).
Definition set_uniforms (w : World) (v : Uniforms) : World :=
  mkWorld (particles w) (mousePos w) (lastFrameTime w) (deltaTime w) (ssbo w) (vbo w) v.

Definition world0 : World :=
  mkWorld particles0 zero2 (Fin 0) (Fin 0) [] None (fun _ => None).

(** ** A monad for [main]: state, emitted calls, and [return] from main

    Running a computation from a state yields the calls it makes, one after
    the other, and then how it ends: with a value ([Continue]) or by
    returning from [main] ([Return]), and in which state. *)

Inductive Outcome (A : Type) : Type :=
| Continue (a : A)
| Return (code : Z).
Arguments Continue {A} a.
Arguments Return {A} code.

Inductive Run (A : Type) : Type :=
| Emit (e : Event) (rest : Run A)
| Done (o : Outcome A) (w : World).
Arguments Emit {A} e rest.
Arguments Done {A} o w.

Definition M (A : Type) : Type := World -> Run A.

Fixpoint trace_of {A} (r : Run A) : list Event :=
  match r with
  | Emit e rest => e :: trace_of rest
  | Done _ _ => []
  end.

Fixpoint outcome_of {A} (r : Run A) : Outcome A :=
  match r with
  | Emit _ rest => outcome_of rest
  | Done o _ => o
  end.

Fixpoint world_of {A} (r : Run A) : World :=
  match r with
  | Emit _ rest => world_of rest
  | Done _ w => w
  end.

Definition ret {A} (a : A) : M A := fun w => Done (Continue a) w.

Fixpoint then_ {A B} (r : Run A) (f : A -> M B) : Run B :=
  match r with
  | Emit e rest => Emit e (then_ rest f)
  | Done (Continue a) w => f a w
  | Done (Return code) w => Done (Return code) w
  end.

Definition bind {A B} (m : M A) (f : A -> M B) : M B :=
  fun w => then_ (m w) f.

Notation "x <- m ;; k" := (bind m (fun x => k))
  (at level 61, m at next level, right associativity).
Notation "m ;; k" := (bind m (fun _ => k))
  (at level 61, right associativity).

Definition call (e : Event) : M unit := fun w => Emit e (Done (Continue tt) w).
Definition return_ {A} (code : Z) : M A := fun w => Done (Return code) w.
Definition get : M World := fun w => Done (Continue w) w.
Definition modify (f : World -> World) : M unit := fun w => Done (Continue tt) (f w).
Definition when (c : bool) (m : M unit) : M unit := if c then m else ret tt.

Fixpoint for_each {A} (l : list A) (body : A -> M unit) : M unit :=
  match l with
  | [] => ret tt
  | a :: l => body a ;; for_each l body
  end.

(** ** The program *)

Definition sizeof_Particle : Z := 40.      (* 2+2+4+1+1 floats of 4 bytes *)
Definition offsetof_position : Z := 0.
Definition offsetof_color : Z := 16.

(* The object names [main] holds in local variables once set up. *)
Record Handles : Type := mkHandles {
  window : Z;
  computeShader : Z;
  computeShaderProgram : Z;
  vertexShader : Z;
  fragmentShader : Z;
  renderShaderProgram : Z;
  particleSSBO : Z;
  particleVAO : Z;
  particleVBO : Z
}.

(* void mouse_callback(GLFWwindow*, double xpos, double ypos) *)
Definition mouse_callback (window : Z) (ev : CursorEvent) : M unit :=
  call (glfwGetFramebufferSize window) ;;
  let width := fb_width ev in
  let height := fb_height ev in
  modify (fun w => set_mousePos w
    (glm.mkvec2 (fsub (fmul (fdiv (xpos ev) (of_int width)) (Fin 2)) (Fin 1))
                (glm.y (mousePos w)))) ;;
  modify (fun w => set_mousePos w
    (glm.mkvec2 (glm.x (mousePos w))
                (fsub (Fin 1) (fmul (fdiv (ypos ev) (of_int height)) (Fin 2))))) ;;
  w <- get ;;
  call (cout_mouse (mousePos w)).

Section Program.

Variable env : Env.

(* std::string ReadShaderFile(const std::string& shaderPath): a stream
   that failed to open yields no characters, and nothing is reported. *)
Definition ReadShaderFile (shaderPath : string) : M string :=
  call (ifstream_open shaderPath) ;;
  let shaderStream :=
    match files env shaderPath with
    | Some text => text
    | None => EmptyString
    end in
  ret shaderStream.

(* glGetShaderiv(shader, GL_COMPILE_STATUS, &success) *)
Definition get_compile_status (shader : Z) (success : bool) : M bool :=
  call (glGetShaderiv shader) ;;
  ret (match compile_status env shader with Some s => s | None => success end).

(* glGetProgramiv(program, GL_LINK_STATUS, &success) *)
Definition get_link_status (program : Z) (success : bool) : M bool :=
  call (glGetProgramiv program) ;;
  ret (match link_status env program with Some s => s | None => success end).

(* GLuint CompileShader(const std::string& source, GLenum shaderType) *)
Definition CompileShader (source : string) (shaderType : ShaderType) : M Z :=
  call (glCreateShader shaderType) ;;
  let shader := glCreateShader_result env shaderType in
  call (glShaderSource shader source) ;;
  call (glCompileShader shader) ;;
  success <- get_compile_status shader (uninitialised env) ;;
  if negb success then
    call (glGetShaderInfoLog shader) ;;
    call (cerr_log "ERROR::SHADER::COMPILATION_FAILED" (shader_infoLog env shader)) ;;
    ret 0%Z
  else ret shader.

(* Lines 36-58 of main: the three initialisations that can fail. *)
Definition startup : M Z :=
  call glfwInit ;;
  when (negb (glfwInit_result env))
    (call (cerr "Failed to initialize GLFW") ;;
     return_ (-1)) ;;
  call (glfwCreateWindow 640 480 "Compute Shader Particle System") ;;
  match glfwCreateWindow_result env with
  | None =>
      call (cerr "Failed to create GLFW window") ;;
      call glfwTerminate ;;
      return_ (-1)
  | Some window =>
      call (glfwMakeContextCurrent window) ;;
      call glewInit ;;
      when (negb (glewInit_ok env))
        (call (cerr "Failed to initialize GLEW") ;;
         return_ (-1)) ;;
      ret window
  end.

(* Lines 67-89 of main. *)
Definition seed_particles : M unit :=
  let eng := mkEngine (entropy env) 0 in
  modify (fun w => set_particles w (fst (init_particles eng (particles w)))).

(* Lines 60-169 of main: callback, clock, particles, programs, buffers. *)
Definition initialise (window : Z) : M Handles :=
  call (glfwSetCursorPosCallback window) ;;
  call clock_now ;;
  modify (fun w => set_lastFrameTime w (start_time env)) ;;
  modify (fun w => set_deltaTime w (Fin 0)) ;;
  seed_particles ;;
  (* compute program *)
  computeShaderSource <- ReadShaderFile "compute_shader.glsl" ;;
  computeShader <- CompileShader computeShaderSource GL_COMPUTE_SHADER ;;
  success <- get_compile_status computeShader (uninitialised env) ;;
  when (negb success)
    (call (glGetShaderInfoLog computeShader) ;;
     call (cerr_log "ERROR::COMPUTESHADER::COMPILATION_FAILED"
             (shader_infoLog env computeShader))) ;;
  call glCreateProgram ;;
  let computeShaderProgram := computeProgram_name env in
  call (glAttachShader computeShaderProgram computeShader) ;;
  call (glLinkProgram computeShaderProgram) ;;
  success <- get_link_status computeShaderProgram success ;;
  when (negb success)
    (call (glGetProgramInfoLog computeShaderProgram) ;;
     call (cerr_log "ERROR::COMPUTEPROGRAM::LINKING_FAILED"
             (program_infoLog env computeShaderProgram))) ;;
  (* render program *)
  vertexShaderSource <- ReadShaderFile "vertex_shader.glsl" ;;
  fragmentShaderSource <- ReadShaderFile "fragment_shader.glsl" ;;
  vertexShader <- CompileShader vertexShaderSource GL_VERTEX_SHADER ;;
  success <- get_compile_status vertexShader success ;;
  when (negb success)
    (call (glGetShaderInfoLog vertexShader) ;;
     call (cerr_log "ERROR::VERTEXSHADER::COMPILATION_FAILED"
             (shader_infoLog env vertexShader))) ;;
  fragmentShader <- CompileShader fragmentShaderSource GL_FRAGMENT_SHADER ;;
  success <- get_compile_status fragmentShader success ;;
  when (negb success)
    (call (glGetShaderInfoLog fragmentShader) ;;
     call (cerr_log "ERROR::FRAGMENTSHADER::COMPILATION_FAILED"
             (shader_infoLog env fragmentShader))) ;;
  call glCreateProgram ;;
  let renderShaderProgram := renderProgram_name env in
  call (glAttachShader renderShaderProgram vertexShader) ;;
  call (glAttachShader renderShaderProgram fragmentShader) ;;
  call (glLinkProgram renderShaderProgram) ;;
  success <- get_link_status renderShaderProgram success ;;
  when (negb success)
    (call (glGetProgramInfoLog renderShaderProgram) ;;
     call (cerr_log "ERROR::RENDERPROGRAM::LINKING_FAILED"
             (program_infoLog env renderShaderProgram))) ;;
  (* the SSBO, filled from the particles *)
  call glGenBuffers ;;
  let particleSSBO := particleSSBO_name env in
  call (glBindBuffer GL_SHADER_STORAGE_BUFFER particleSSBO) ;;
  w <- get ;;
  call (glBufferData GL_SHADER_STORAGE_BUFFER
          (Z.of_nat (List.length (particles w)) * sizeof_Particle)
          (Some (particles w)) GL_DYNAMIC_DRAW) ;;
  modify (fun w => set_ssbo w (particles w)) ;;
  (* VAO and VBO *)
  call glGenVertexArrays ;;
  let particleVAO := particleVAO_name env in
  call glGenBuffers ;;
  let particleVBO := particleVBO_name env in
  call (glBindVertexArray particleVAO) ;;
  call (glBindBuffer GL_ARRAY_BUFFER particleVBO) ;;
  call (glBufferData GL_ARRAY_BUFFER
          (Z.of_nat (List.length (particles w)) * sizeof_Particle)
          None GL_STREAM_DRAW) ;;
  modify (fun w => set_vbo w None) ;;
  call (glEnableVertexAttribArray 0) ;;
  call (glVertexAttribPointer 0 2 sizeof_Particle offsetof_position) ;;
  call (glEnableVertexAttribArray 1) ;;
  call (glVertexAttribPointer 1 4 sizeof_Particle offsetof_color) ;;
  call (glBindBuffer GL_ARRAY_BUFFER 0) ;;
  call (glBindVertexArray 0) ;;
  call glEnableBlend ;;
  call glBlendFunc ;;
  ret (mkHandles window computeShader computeShaderProgram vertexShader
                 fragmentShader renderShaderProgram
                 particleSSBO particleVAO particleVBO).

(* Lines 176-243: the body of the main loop. *)
Definition frame (h : Handles) (fe : FrameEnv) : M unit :=
  call glClear ;;
  call (glPointSize (Fin 10)) ;;
  (* delta time *)
  call clock_now ;;
  let currentFrameTime := now fe in
  modify (fun w => set_deltaTime w (fsub currentFrameTime (lastFrameTime w))) ;;
  modify (fun w => set_lastFrameTime w currentFrameTime) ;;
  call (glUseProgram (computeShaderProgram h)) ;;
  (* debug read-back of the first ten particles *)
  call (glBindBuffer GL_SHADER_STORAGE_BUFFER (particleSSBO h)) ;;
  call (glMapBuffer GL_SHADER_STORAGE_BUFFER) ;;
  when (map_ok fe)
    (w <- get ;;
     for_each (seq 0 10) (fun i =>
       call (cout_particle (Z.of_nat i) (nth i (ssbo w) zeroParticle))) ;;
     call (glUnmapBuffer GL_SHADER_STORAGE_BUFFER)) ;;
  call (glBindBuffer GL_SHADER_STORAGE_BUFFER 0) ;;
  (* copy the SSBO to the VBO *)
  call (glBindBuffer GL_COPY_READ_BUFFER (particleSSBO h)) ;;
  call (glBindBuffer GL_COPY_WRITE_BUFFER (particleVBO h)) ;;
  w <- get ;;
  call (glCopyBufferSubData GL_COPY_READ_BUFFER GL_COPY_WRITE_BUFFER 0 0
          (Z.of_nat (List.length (particles w)) * sizeof_Particle)) ;;
  modify (fun w => set_vbo w (Some (ssbo w))) ;;
  (* uniform update checks *)
  call (glGetUniformLocation (computeShaderProgram h) "mousePos") ;;
  let mousePosLoc := mousePosLoc_result fe in
  call (glGetUniformLocation (computeShaderProgram h) "deltaTime") ;;
  let deltaTimeLoc := deltaTimeLoc_result fe in
  (if negb (mousePosLoc =? -1)%Z then
     w <- get ;;
     call (glUniform2f mousePosLoc (glm.x (mousePos w)) (glm.y (mousePos w))) ;;
     modify (fun w => set_uniforms w
       (set_uniform (uniforms w) mousePosLoc
          (U2f (glm.x (mousePos w)) (glm.y (mousePos w)))))
   else
     call (cerr "mousePos uniform location not found.")) ;;
  (if negb (deltaTimeLoc =? -1)%Z then
     w <- get ;;
     call (glUniform1f deltaTimeLoc (deltaTime w)) ;;
     modify (fun w => set_uniforms w
       (set_uniform (uniforms w) deltaTimeLoc (U1f (deltaTime w))))
   else
     call (cerr "deltaTime uniform location not found.")) ;;
  call (glBindBufferBase GL_SHADER_STORAGE_BUFFER 0 (particleSSBO h)) ;;
  let num_groups_x := (NUM_PARTICLES + 9 ÷ WORK_GROUP_SIZE)%Z in
  call (glDispatchCompute num_groups_x 1 1) ;;
  modify (fun w => set_ssbo w (kernel env (uniforms w) num_groups_x (ssbo w))) ;;
  (* render particles *)
  call (glUseProgram (renderShaderProgram h)) ;;
  call (glBindVertexArray (particleVAO h)) ;;
  call (glDrawArrays 0 NUM_PARTICLES) ;;
  call (glfwSwapBuffers (window h)) ;;
  call glfwPollEvents ;;
  for_each (cursor_events fe) (mouse_callback (window h)).

(* while (!glfwWindowShouldClose(window)) { ... }: one iteration for each
   element of [frames], after which the window asks to close. *)
Fixpoint main_loop (h : Handles) (frames : list FrameEnv) : M unit :=
  call (glfwWindowShouldClose (window h)) ;;
  match frames with
  | [] => ret tt
  | fe :: frames => frame h fe ;; main_loop h frames
  end.

(* Lines 246-262 of main, after the loop. *)
Definition cleanup (h : Handles) : M unit :=
  call glGetError ;;
  call glMemoryBarrier ;;
  call (glDeleteBuffers (particleSSBO h)) ;;
  call (glDeleteVertexArrays (particleVAO h)) ;;
  call (glDeleteBuffers (particleVBO h)) ;;
  call (glDeleteShader (computeShader h)) ;;
  call (glDeleteProgram (computeShaderProgram h)) ;;
  call (glDeleteShader (vertexShader h)) ;;
  call (glDeleteShader (fragmentShader h)) ;;
  call (glDeleteProgram (renderShaderProgram h)) ;;
  call glfwTerminate.

(* int main() *)
Definition main (frames : list FrameEnv) : M unit :=
  window <- startup ;;
  h <- initialise window ;;
  main_loop h frames ;;
  cleanup h.

(* The exit status of a run: that of an early return, or of the final
   [return 0]. *)
Definition exit_code (r : Run unit) : Z :=
  match outcome_of r with
  | Continue _ => 0%Z
  | Return code => code
  end.

End Program.

(** ** Definitions used to state the properties *)

(* The engine after [n] more draws. *)
Definition skip (eng : mt19937) (n : nat) : mt19937 :=
  mkEngine (variates eng) (n + drawn eng).

(* The direction the loop body draws when it starts from [eng]. *)
Definition sampled_direction (eng : mt19937) : glm.vec2 :=
  let (dirX, eng) := distr eng in
  let (dirY, _) := distr eng in
  glm.mkvec2 dirX dirY.

(* An engine whose every canonical variate is 1/2: both direction samples
   of every particle are (1/2) * 2 - 1 = 0. *)
Definition half_engine : mt19937 := mkEngine (fun _ => (1 / 2)%R) 0.

(* The same platform with another outcome of the entropy source. *)
Definition set_entropy (env : Env) (e : nat -> R) : Env :=
  mkEnv (glfwInit_result env) (glfwCreateWindow_result env) (glewInit_ok env)
        (start_time env) e (files env) (glCreateShader_result env)
        (computeProgram_name env) (renderProgram_name env)
        (particleSSBO_name env) (particleVAO_name env) (particleVBO_name env)
        (compile_status env) (link_status env)
        (shader_infoLog env) (program_infoLog env)
        (uninitialised env) (kernel env).

(* The particles as the seeding step of [main] leaves them. *)
Definition seeded (env : Env) : list Particle :=
  particles (world_of (seed_particles env world0)).

(* The steps of an iteration that the specification names, read off the
   calls: clear, elapsed time, buffer copy, uniform push, dispatch, draw. *)
Inductive Step : Type :=
  StepClear | StepTime | StepCopy | StepPushUniform | StepDispatch | StepDraw.

Definition step_of (e : Event) : list Step :=
  match e with
  | glClear => [StepClear]
  | clock_now => [StepTime]
  | glCopyBufferSubData _ _ _ _ _ => [StepCopy]
  | glUniform2f _ _ _ => [StepPushUniform]
  | glUniform1f _ _ => [StepPushUniform]
  | glDispatchCompute _ _ _ => [StepDispatch]
  | glDrawArrays _ _ => [StepDraw]
  | _ => []
  end.

Definition steps (t : list Event) : list Step := flat_map step_of t.

Definition Step_eqb (s1 s2 : Step) : bool :=
  match s1, s2 with
  | StepClear, StepClear | StepTime, StepTime | StepCopy, StepCopy
  | StepPushUniform, StepPushUniform | StepDispatch, StepDispatch
  | StepDraw, StepDraw => true
  | _, _ => false
  end.

(* Some [s1] comes earlier in the list than some [s2]. *)
Fixpoint occurs_before (s1 s2 : Step) (l : list Step) : bool :=
  match l with
  | [] => false
  | s :: l =>
      (Step_eqb s s1 && existsb (Step_eqb s2) l) || occurs_before s1 s2 l
  end.

(* How many uniforms an iteration pushes. *)
Definition pushes (fe : FrameEnv) : nat :=
  (if (mousePosLoc_result fe =? -1)%Z then 0 else 1) +
  (if (deltaTimeLoc_result fe =? -1)%Z then 0 else 1).

(* The work-group counts of the dispatch calls. *)
Definition dispatch_of (e : Event) : list Z :=
  match e with glDispatchCompute n _ _ => [n] | _ => [] end.
Definition dispatched (t : list Event) : list Z := flat_map dispatch_of t.

(* ceil(n / g) for positive g, as the specification writes the count. *)
Definition ceil_div (n g : Z) : Z := ((n + g - 1) / g)%Z.

(* The uniform updates and the diagnostics among the calls. *)
Definition uniform2f_of (e : Event) : list (Z * float * float) :=
  match e with glUniform2f l v0 v1 => [(l, v0, v1)] | _ => [] end.
Definition uniform1f_of (e : Event) : list (Z * float) :=
  match e with glUniform1f l v0 => [(l, v0)] | _ => [] end.
Definition cerr_of (e : Event) : list string :=
  match e with cerr msg => [msg] | cerr_log msg _ => [msg] | _ => [] end.
Definition draw_of (e : Event) : list (Z * Z) :=
  match e with glDrawArrays first count => [(first, count)] | _ => [] end.

(* Memory barriers, and what follows the first one. *)
Definition barrier_of (e : Event) : list unit :=
  match e with glMemoryBarrier => [tt] | _ => [] end.
Definition barriers (t : list Event) : nat := List.length (flat_map barrier_of t).

Fixpoint after_barrier (t : list Event) : list Event :=
  match t with
  | [] => []
  | glMemoryBarrier :: t => t
  | _ :: t => after_barrier t
  end.

(* Calls that only the main loop makes: its condition and its passes. *)
Definition loop_call_of (e : Event) : list Event :=
  match e with
  | glfwWindowShouldClose _ | glClear | glCopyBufferSubData _ _ _ _ _
  | glDispatchCompute _ _ _ | glDrawArrays _ _ | glfwSwapBuffers _
  | glfwPollEvents => [e]
  | _ => []
  end.

(* Releasing GLFW (and with it the window). *)
Definition terminate_of (e : Event) : list unit :=
  match e with glfwTerminate => [tt] | _ => [] end.

(* The three initialisations of [startup] all succeed. *)
Definition started (env : Env) : bool :=
  glfwInit_result env &&
  match glfwCreateWindow_result env with Some _ => true | None => false end &&
  glewInit_ok env.

(* A platform on which everything succeeds and the kernel does nothing. *)
Definition env0 : Env :=
  mkEnv true (Some 1%Z) true (Fin 0) (fun _ => 0%R)
        (fun _ => Some "void main() {}"%string)
        (fun ty => match ty with
                   | GL_COMPUTE_SHADER => 1 | GL_VERTEX_SHADER => 2
                   | GL_FRAGMENT_SHADER => 3 end%Z)
        4 5 6 7 8
        (fun _ => Some true) (fun _ => Some true)
        (fun _ => EmptyString) (fun _ => EmptyString)
        false (fun _ _ ps => ps).

Definition h0 : Handles := mkHandles 1 1 4 2 3 5 6 7 8.

(* An iteration in which both uniforms are found. *)
Definition fe0 : FrameEnv := mkFrameEnv (Fin 0.016) false 0 1 [].

(* A computation none of whose calls is read by the observation [obs]. *)
Definition silent {X A} (obs : Event -> list X) (m : M A) : Prop :=
  forall w, flat_map obs (trace_of (m w)) = [].

(* A computation that never returns from [main]. *)
Definition proceeds {A} (m : M A) : Prop :=
  forall w, exists a, outcome_of (m w) = Continue a.

Definition set_files (env : Env) (fs : string -> option string) : Env :=
  mkEnv (glfwInit_result env) (glfwCreateWindow_result env) (glewInit_ok env)
        (start_time env) (entropy env) fs (glCreateShader_result env)
        (computeProgram_name env) (renderProgram_name env)
        (particleSSBO_name env) (particleVAO_name env) (particleVBO_name env)
        (compile_status env) (link_status env)
        (shader_infoLog env) (program_infoLog env)
        (uninitialised env) (kernel env).

(* The uniforms after the two update checks of an iteration started in [w]. *)
Definition pushed_uniforms (fe : FrameEnv) (w : World) : Uniforms :=
  let u := uniforms w in
  let u := if (mousePosLoc_result fe =? -1)%Z then u
           else set_uniform u (mousePosLoc_result fe)
                  (U2f (glm.x (mousePos w)) (glm.y (mousePos w))) in
  if (deltaTimeLoc_result fe =? -1)%Z then u
  else set_uniform u (deltaTimeLoc_result fe)
         (U1f (fsub (now fe) (lastFrameTime w))).

(* Platforms on which one of the three initialisations of [startup] fails
   (and the ones before it succeed); the rest is as in [env]. *)
Definition set_startup (env : Env) (init : bool) (win : option Z) (glew : bool) : Env :=
  mkEnv init win glew
        (start_time env) (entropy env) (files env) (glCreateShader_result env)
        (computeProgram_name env) (renderProgram_name env)
        (particleSSBO_name env) (particleVAO_name env) (particleVBO_name env)
        (compile_status env) (link_status env)
        (shader_infoLog env) (program_infoLog env)
        (uninitialised env) (kernel env).
Definition glfwInit_fails (env : Env) : Env :=
  set_startup env false (glfwCreateWindow_result env) (glewInit_ok env).
Definition glfwCreateWindow_fails (env : Env) : Env :=
  set_startup env true None (glewInit_ok env).
Definition glewInit_fails (env : Env) (win : Z) : Env :=
  set_startup env true (Some win) false.

(* A platform on which no shader file can be opened. *)
Definition env_no_files : Env := set_files env0 (fun _ => None).

(** ** Definitions used to state further properties *)

(* A run that first makes the calls of [l]. *)
Fixpoint emits {A} (l : list Event) (r : Run A) : Run A :=
  match l with
  | [] => r
  | e :: l => Emit e (emits l r)
  end.

(* What CompileShader reads as the compile status of the shader it made. *)
Definition compile_ok (env : Env) (ty : ShaderType) : bool :=
  match compile_status env (glCreateShader_result env ty) with
  | Some s => s
  | None => uninitialised env
  end.

(* The value CompileShader returns for a shader type. *)
Definition compiled (env : Env) (ty : ShaderType) : Z :=
  if compile_ok env ty then glCreateShader_result env ty else 0%Z.

(* The calls CompileShader makes. *)
Definition compile_calls (env : Env) (source : string) (ty : ShaderType)
  : list Event :=
  let shader := glCreateShader_result env ty in
  [glCreateShader ty; glShaderSource shader source; glCompileShader shader;
   glGetShaderiv shader] ++
  (if compile_ok env ty then []
   else [glGetShaderInfoLog shader;
         cerr_log "ERROR::SHADER::COMPILATION_FAILED" (shader_infoLog env shader)]).


(* The window of a platform that creates one. *)
Definition window_of (env : Env) : Z :=
  match glfwCreateWindow_result env with
  | Some win => win
  | None => 0%Z
  end.

(* The object names [main] holds when set-up is over. *)
Definition handles (env : Env) (win : Z) : Handles :=
  mkHandles win
            (compiled env GL_COMPUTE_SHADER) (computeProgram_name env)
            (compiled env GL_VERTEX_SHADER) (compiled env GL_FRAGMENT_SHADER)
            (renderProgram_name env)
            (particleSSBO_name env) (particleVAO_name env) (particleVBO_name env).

(* The state when set-up is over, started from [w]. *)
Definition initialised (env : Env) (w : World) : World :=
  let w := set_deltaTime (set_lastFrameTime w (start_time env)) (Fin 0) in
  let w := set_particles w
             (fst (init_particles (mkEngine (entropy env) 0) (particles w))) in
  set_vbo (set_ssbo w (particles w)) None.

Definition create_of (e : Event) : list ShaderType :=
  match e with glCreateShader ty => [ty] | _ => [] end.
Definition attach_of (e : Event) : list (Z * Z) :=
  match e with glAttachShader program shader => [(program, shader)] | _ => [] end.
Definition delete_shader_of (e : Event) : list Z :=
  match e with glDeleteShader shader => [shader] | _ => [] end.
Definition alloc_of (e : Event)
  : list (BufferTarget * Z * option (list Particle) * Usage) :=
  match e with
  | glBufferData target size data usage => [(target, size, data, usage)]
  | _ => []
  end.
Definition copy_of (e : Event) : list (Z * Z * Z) :=
  match e with
  | glCopyBufferSubData _ _ readOffset writeOffset size =>
      [(readOffset, writeOffset, size)]
  | _ => []
  end.
Definition map_of (e : Event) : list unit :=
  match e with glMapBuffer _ => [tt] | _ => [] end.
Definition unmap_of (e : Event) : list unit :=
  match e with glUnmapBuffer _ => [tt] | _ => [] end.
Definition print_of (e : Event) : list (Z * Particle) :=
  match e with cout_particle i p => [(i, p)] | _ => [] end.

(* A platform on which no shader compiles. *)
Definition env_no_compile : Env :=
  mkEnv true (Some 1%Z) true (Fin 0) (fun _ => 0%R)
        (fun _ => Some "void main() {}"%string)
        (fun ty => match ty with
                   | GL_COMPUTE_SHADER => 1 | GL_VERTEX_SHADER => 2
                   | GL_FRAGMENT_SHADER => 3 end%Z)
        4 5 6 7 8
        (fun _ => Some false) (fun _ => Some false)
        (fun _ => "syntax error"%string) (fun _ => "link error"%string)
        false (fun _ _ ps => ps).

(* Two clock readings one sixtieth of a second apart. *)
Definition fe_a : FrameEnv := mkFrameEnv (Fin 1) true 0 1 [].
Definition fe_b : FrameEnv :=
  mkFrameEnv (Fin (1 + 1 / 60)) true 0 (-1)
             [mkCursorEvent (Fin 320) (Fin 240) 640 480].

Definition status_query_of (e : Event) : list Z :=
  match e with glGetShaderiv shader => [shader] | _ => [] end.

(** * Properties *)

(** ** Floating-point facts *)

Lemma Rzero_true (r : R) : r = 0%R -> Rzero r = true.
Proof. intros H. unfold Rzero. destruct (Req_dec_T r 0); [reflexivity | contradiction]. Qed.

Lemma Rzero_false (r : R) : r <> 0%R -> Rzero r = false.
Proof. intros H. unfold Rzero. destruct (Req_dec_T r 0); [contradiction | reflexivity]. Qed.

Lemma Rneg_false (r : R) : (0 <= r)%R -> Rneg r = false.
Proof. intros H. unfold Rneg. destruct (Rlt_dec r 0); [lra | reflexivity]. Qed.

Lemma fdiv_Fin (r s : R) : s <> 0%R -> fdiv (Fin r) (Fin s) = Fin (r / s).
Proof. intros H. simpl. now rewrite Rzero_false. Qed.

Lemma fsqrt_Fin (r : R) : (0 <= r)%R -> fsqrt (Fin r) = Fin (sqrt r).
Proof. intros H. simpl. now rewrite Rneg_false. Qed.

Lemma randomSpeedFactor_value : randomSpeedFactor = Fin 0.205.
Proof. unfold randomSpeedFactor. cbn [fadd]. f_equal. lra. Qed.

(** ** GLM facts *)

Lemma sum_squares_pos (dx dy : R) :
  (dx <> 0 \/ dy <> 0)%R -> (0 < dx * dx + dy * dy)%R.
Proof. intros [H | H]; nra. Qed.

(* A non-zero direction, normalised and scaled, component by component. *)
Lemma scale_normalize_Fin (dx dy s : R) :
  (dx <> 0 \/ dy <> 0)%R ->
  glm.scale (glm.normalize (glm.mkvec2 (Fin dx) (Fin dy))) (Fin s) =
  glm.mkvec2 (Fin (dx * (1 / sqrt (dx * dx + dy * dy)) * s))
             (Fin (dy * (1 / sqrt (dx * dx + dy * dy)) * s)).
Proof.
  intros H. pose proof (sum_squares_pos dx dy H) as Hpos.
  unfold glm.normalize, glm.inversesqrt, glm.dot. cbn [glm.x glm.y fmul fadd].
  rewrite fsqrt_Fin by lra.
  rewrite fdiv_Fin by (apply Rgt_not_eq, sqrt_lt_R0; exact Hpos).
  reflexivity.
Qed.



(** ** Particle seeding *)

Lemma init_particle_fst (eng : mt19937) (p : Particle) :
  fst (init_particle eng p) =
  mkParticle
    (glm.mkvec2 (Fin 20) (Fin 20))
    (glm.scale (glm.normalize (sampled_direction eng)) randomSpeedFactor)
    (glm.mkvec4 (fst (colorDistr (skip eng 2))) (fst (colorDistr (skip eng 3)))
                (fst (colorDistr (skip eng 4))) (Fin 1))
    (Fin 0)
    (fst (lifeTimeDistr (skip eng 5))).
Proof. reflexivity. Qed.

Lemma init_particle_snd (eng : mt19937) (p : Particle) :
  snd (init_particle eng p) = skip eng 6.
Proof. reflexivity. Qed.

Lemma skip_skip (eng : mt19937) (n m : nat) : skip (skip eng n) m = skip eng (m + n).
Proof. unfold skip. simpl. f_equal. lia. Qed.

Lemma skip_0 (eng : mt19937) : skip eng 0 = eng.
Proof. destruct eng. reflexivity. Qed.

Lemma init_particles_cons (eng : mt19937) (p : Particle) (ps : list Particle) :
  init_particles eng (p :: ps) =
  (fst (init_particle eng p) :: fst (init_particles (skip eng 6) ps),
   snd (init_particles (skip eng 6) ps)).
Proof.
  cbn [init_particles].
  rewrite (surjective_pairing (init_particle eng p)), init_particle_snd.
  now destruct (init_particles (skip eng 6) ps).
Qed.

Lemma init_particles_length (ps : list Particle) :
  forall eng, List.length (fst (init_particles eng ps)) = List.length ps.
Proof.
  induction ps as [| p ps IH]; intros eng; [reflexivity |].
  rewrite init_particles_cons. cbn [fst List.length]. now rewrite IH.
Qed.


Lemma init_particles_Forall (P : Particle -> Prop) (ps : list Particle) :
  (forall eng p, P (fst (init_particle eng p))) ->
  forall eng, Forall P (fst (init_particles eng ps)).
Proof.
  intros HP. induction ps as [| q ps IH]; intros eng; [constructor |].
  rewrite init_particles_cons. cbn [fst]. constructor; [apply HP | apply IH].
Qed.

Lemma init_particles_Forall2 (P : Particle -> Particle -> Prop)
      (v1 v2 : nat -> R) (ps : list Particle) :
  (forall d1 d2 p q,
      P (fst (init_particle (mkEngine v1 d1) p)) (fst (init_particle (mkEngine v2 d2) q))) ->
  forall d1 d2,
    Forall2 P (fst (init_particles (mkEngine v1 d1) ps))
              (fst (init_particles (mkEngine v2 d2) ps)).
Proof.
  intros HP. induction ps as [| q ps IH]; intros d1 d2; [constructor |].
  rewrite !init_particles_cons. cbn [fst]. constructor; [apply HP | apply IH].
Qed.




Lemma sampled_direction_Fin (eng : mt19937) :
  sampled_direction eng =
  glm.mkvec2 (Fin (variates eng (drawn eng) * (1 - -1) + -1))
             (Fin (variates eng (S (drawn eng)) * (1 - -1) + -1)).
Proof. reflexivity. Qed.




(** C5.  Whatever the pointer position and the random draws, the seeding
    loop leaves NUM_PARTICLES particles that all sit at the same fixed
    coordinate (20, 20). *)
Theorem seeded_positions_fixed (env : Env) (pointer : glm.vec2) :
  let w := world_of (seed_particles env (set_mousePos world0 pointer)) in
  List.length (particles w) = Z.to_nat NUM_PARTICLES /\
  Forall (fun p => position p = glm.mkvec2 (Fin 20) (Fin 20)) (particles w) /\
  mousePos w = pointer.
Proof.
  cbn zeta. unfold seed_particles, modify. cbn [world_of fst snd set_particles particles mousePos set_mousePos world0].
  split; [| split; [| reflexivity]].
  - rewrite init_particles_length. unfold particles0. apply repeat_length.
  - apply init_particles_Forall. intros eng p. now rewrite init_particle_fst.
Qed.

Lemma seeded_eq (env : Env) :
  seeded env = fst (init_particles (mkEngine (entropy env) 0) particles0).
Proof. reflexivity. Qed.

Lemma vec2_Fin_x_neq (a b c d : R) :
  a <> c -> glm.mkvec2 (Fin a) (Fin b) <> glm.mkvec2 (Fin c) (Fin d).
Proof. intros H E. injection E as E1 E2. contradiction. Qed.

(** C10.  Seeding is not a function of the program's other inputs: on one
    and the same platform there are two outcomes of the entropy source for
    which all NUM_PARTICLES particles differ, index by index, in velocity,
    in colour and in lifetime. *)
Theorem seeding_depends_on_entropy (env : Env) :
  exists e1 e2 : nat -> R,
    canonical (mkEngine e1 0) /\ canonical (mkEngine e2 0) /\
    List.length (seeded (set_entropy env e1)) = Z.to_nat NUM_PARTICLES /\
    Forall2 (fun p q =>
               velocity p <> velocity q /\
               color p <> color q /\
               lifeTime p <> lifeTime q)
            (seeded (set_entropy env e1)) (seeded (set_entropy env e2)).
Proof.
  exists (fun _ => 0%R), (fun _ => (3 / 4)%R).
  split; [intros n; simpl; lra |]. split; [intros n; simpl; lra |].
  rewrite !seeded_eq. cbn [entropy set_entropy].
  split; [rewrite init_particles_length; apply repeat_length |].
  apply init_particles_Forall2. intros d1 d2 p q.
  rewrite !init_particle_fst. cbn [velocity color lifeTime].
  rewrite !sampled_direction_Fin, randomSpeedFactor_value. cbn [variates drawn].
  rewrite !scale_normalize_Fin by (left; lra).
  split; [| split].
  - apply vec2_Fin_x_neq.
    set (n1 := ((0 * (1 - -1) + -1) * (0 * (1 - -1) + -1) +
                (0 * (1 - -1) + -1) * (0 * (1 - -1) + -1))%R).
    set (n2 := ((3 / 4 * (1 - -1) + -1) * (3 / 4 * (1 - -1) + -1) +
                (3 / 4 * (1 - -1) + -1) * (3 / 4 * (1 - -1) + -1))%R).
    assert (H1 : (0 < 1 / sqrt n1)%R).
    { apply Rdiv_lt_0_compat; [lra | apply sqrt_lt_R0; unfold n1; lra]. }
    assert (H2 : (0 < 1 / sqrt n2)%R).
    { apply Rdiv_lt_0_compat; [lra | apply sqrt_lt_R0; unfold n2; lra]. }
    nra.
  - unfold colorDistr, uniform_real_distribution. cbn.
    intros E. injection E as E1 _. lra.
  - unfold lifeTimeDistr, uniform_real_distribution. cbn [generate_canonical skip variates drawn fst].
    intros E. injection E as E1. lra.
Qed.

(** ** Runs *)

Lemma trace_then {A B} (r : Run A) (f : A -> M B) :
  trace_of (then_ r f) =
  trace_of r ++
  match outcome_of r with
  | Continue a => trace_of (f a (world_of r))
  | Return _ => []
  end.
Proof.
  induction r as [e r IH | o w]; cbn [then_ trace_of outcome_of world_of app].
  - now rewrite IH.
  - now destruct o.
Qed.

Lemma outcome_then {A B} (r : Run A) (f : A -> M B) :
  outcome_of (then_ r f) =
  match outcome_of r with
  | Continue a => outcome_of (f a (world_of r))
  | Return code => Return code
  end.
Proof.
  induction r as [e r IH | o w]; cbn [then_ outcome_of world_of]; [exact IH |].
  now destruct o.
Qed.

Lemma world_then {A B} (r : Run A) (f : A -> M B) :
  world_of (then_ r f) =
  match outcome_of r with
  | Continue a => world_of (f a (world_of r))
  | Return _ => world_of r
  end.
Proof.
  induction r as [e r IH | o w]; cbn [then_ outcome_of world_of]; [exact IH |].
  now destruct o.
Qed.

(** ** The pointer callback *)

(** C6.  For a surface of positive width and height the callback stores
    x' = 2x/width - 1 and y' = 1 - 2y/height in mousePos; so the centre of
    the surface maps to (0,0), the top-left pixel (0,0) to (-1,1) and the
    bottom-right corner (width,height) to (1,-1). *)
Theorem mouse_callback_normalizes
        (win : Z) (w : World) (px py : R) (width height : Z) :
  (0 < width)%Z -> (0 < height)%Z ->
  let at_ := fun x y =>
    mousePos (world_of
      (mouse_callback win (mkCursorEvent (Fin x) (Fin y) width height) w)) in
  at_ px py = glm.mkvec2 (Fin (2 * px / IZR width - 1))
                         (Fin (1 - 2 * py / IZR height)) /\
  at_ (IZR width / 2)%R (IZR height / 2)%R = glm.mkvec2 (Fin 0) (Fin 0) /\
  at_ 0%R 0%R = glm.mkvec2 (Fin (-1)) (Fin 1) /\
  at_ (IZR width) (IZR height) = glm.mkvec2 (Fin 1) (Fin (-1)).
Proof.
  intros Hw Hh.
  assert (Hw' : IZR width <> 0%R) by (apply Rgt_not_eq, (IZR_lt 0); exact Hw).
  assert (Hh' : IZR height <> 0%R) by (apply Rgt_not_eq, (IZR_lt 0); exact Hh).
  assert (E : forall x y,
    mousePos (world_of
      (mouse_callback win (mkCursorEvent (Fin x) (Fin y) width height) w)) =
    glm.mkvec2 (Fin (x / IZR width * 2 - 1)) (Fin (1 + - (y / IZR height * 2)))).
  { intros x y. unfold mouse_callback, of_int.
    cbn [bind then_ call modify get world_of mousePos set_mousePos
         xpos ypos fb_width fb_height glm.x glm.y].
    rewrite !fdiv_Fin by assumption. reflexivity. }
  cbv beta zeta. rewrite !E.
  repeat split; f_equal; f_equal; field; assumption.
Qed.

Lemma mouse_callback_normalizes_witness :
  (0 < 640)%Z /\ (0 < 480)%Z /\
  mousePos (world_of
    (mouse_callback 1 (mkCursorEvent (Fin 160) (Fin 120) 640 480) world0)) =
  glm.mkvec2 (Fin (2 * 160 / IZR 640 - 1)) (Fin (1 - 2 * 120 / IZR 480)) /\
  mousePos (world_of
    (mouse_callback 1
       (mkCursorEvent (Fin (IZR 640 / 2)) (Fin (IZR 480 / 2)) 640 480) world0)) =
  glm.mkvec2 (Fin 0) (Fin 0).
Proof.
  split; [reflexivity |]. split; [reflexivity |].
  destruct (mouse_callback_normalizes 1 world0 160 120 640 480 eq_refl eq_refl)
    as (H1 & H2 & _).
  split; [exact H1 | exact H2].
Defined.

(* The callbacks run by one glfwPollEvents: they end normally, touch only
   mousePos, and make no call that any of the observations above reads. *)
Lemma poll_outcome (win : Z) (l : list CursorEvent) :
  forall w, outcome_of (for_each l (mouse_callback win) w) = Continue tt.
Proof.
  induction l as [| ev l IH]; intros w; [reflexivity |].
  cbn [for_each]. unfold bind at 1. rewrite outcome_then. unfold mouse_callback at 1.
  cbn [bind then_ call modify get outcome_of world_of]. apply IH.
Qed.

Lemma poll_world (win : Z) (l : list CursorEvent) :
  forall w,
    let w' := world_of (for_each l (mouse_callback win) w) in
    particles w' = particles w /\ ssbo w' = ssbo w /\ vbo w' = vbo w /\
    uniforms w' = uniforms w /\ lastFrameTime w' = lastFrameTime w /\
    deltaTime w' = deltaTime w.
Proof.
  induction l as [| ev l IH]; intros w; [cbn; tauto |].
  cbn zeta. cbn [for_each]. unfold bind at 1. rewrite world_then.
  unfold mouse_callback at 1 2.
  cbn [bind then_ call modify get outcome_of world_of].
  match goal with |- context [for_each l _ ?w1] => specialize (IH w1) end.
  cbn zeta in IH. exact IH.
Qed.

Lemma poll_unobserved {X} (obs : Event -> list X) (win : Z) (l : list CursorEvent) :
  obs (glfwGetFramebufferSize win) = [] ->
  (forall pos, obs (cout_mouse pos) = []) ->
  forall w, flat_map obs (trace_of (for_each l (mouse_callback win) w)) = [].
Proof.
  intros H1 H2. induction l as [| ev l IH]; intros w; [reflexivity |].
  cbn [for_each]. unfold bind at 1. rewrite trace_then, flat_map_app.
  unfold mouse_callback at 1 2 3.
  cbn [bind then_ call modify get outcome_of world_of trace_of flat_map].
  now rewrite H1, H2, IH.
Qed.

(** ** One iteration of the main loop *)

Ltac run_step :=
  cbn [bind then_ call modify get when ret for_each seq negb
       trace_of outcome_of world_of flat_map app].

(* Unfold an iteration along each of its three branches. *)
Ltac frame_cases fe :=
  unfold frame; run_step;
  destruct (map_ok fe);
  destruct (mousePosLoc_result fe =? -1)%Z eqn:?;
  destruct (deltaTimeLoc_result fe =? -1)%Z eqn:?;
  run_step.

Lemma frame_outcome (env : Env) (h : Handles) (fe : FrameEnv) (w : World) :
  outcome_of (frame env h fe w) = Continue tt.
Proof. frame_cases fe; apply poll_outcome. Qed.

Lemma frame_steps (env : Env) (h : Handles) (fe : FrameEnv) (w : World) :
  steps (trace_of (frame env h fe w)) =
  [StepClear; StepTime; StepCopy] ++ repeat StepPushUniform (pushes fe) ++
  [StepDispatch; StepDraw].
Proof.
  unfold steps, pushes.
  frame_cases fe; cbn [step_of app];
    (rewrite poll_unobserved; [reflexivity | reflexivity | reflexivity]).
Qed.

Lemma frame_dispatched (env : Env) (h : Handles) (fe : FrameEnv) (w : World) :
  dispatched (trace_of (frame env h fe w)) = [(NUM_PARTICLES + 9 ÷ WORK_GROUP_SIZE)%Z].
Proof.
  unfold dispatched.
  frame_cases fe; cbn [dispatch_of app];
    (rewrite poll_unobserved; [reflexivity | reflexivity | reflexivity]).
Qed.

Lemma frame_draws (env : Env) (h : Handles) (fe : FrameEnv) (w : World) :
  flat_map draw_of (trace_of (frame env h fe w)) = [(0%Z, NUM_PARTICLES)].
Proof.
  frame_cases fe; cbn [draw_of app];
    (rewrite poll_unobserved; [reflexivity | reflexivity | reflexivity]).
Qed.

Lemma frame_barriers (env : Env) (h : Handles) (fe : FrameEnv) (w : World) :
  flat_map barrier_of (trace_of (frame env h fe w)) = [].
Proof.
  frame_cases fe; cbn [barrier_of app];
    (rewrite poll_unobserved; [reflexivity | reflexivity | reflexivity]).
Qed.

Lemma frame_uniform2f (env : Env) (h : Handles) (fe : FrameEnv) (w : World) :
  flat_map uniform2f_of (trace_of (frame env h fe w)) =
  if (mousePosLoc_result fe =? -1)%Z then []
  else [(mousePosLoc_result fe, glm.x (mousePos w), glm.y (mousePos w))].
Proof.
  frame_cases fe; cbn [uniform2f_of app];
    (rewrite poll_unobserved; [reflexivity | reflexivity | reflexivity]).
Qed.

Lemma frame_uniform1f (env : Env) (h : Handles) (fe : FrameEnv) (w : World) :
  flat_map uniform1f_of (trace_of (frame env h fe w)) =
  if (deltaTimeLoc_result fe =? -1)%Z then []
  else [(deltaTimeLoc_result fe, fsub (now fe) (lastFrameTime w))].
Proof.
  frame_cases fe; cbn [uniform1f_of app];
    (rewrite poll_unobserved; [reflexivity | reflexivity | reflexivity]).
Qed.

Lemma frame_cerr (env : Env) (h : Handles) (fe : FrameEnv) (w : World) :
  flat_map cerr_of (trace_of (frame env h fe w)) =
  (if (mousePosLoc_result fe =? -1)%Z
   then ["mousePos uniform location not found."%string] else []) ++
  (if (deltaTimeLoc_result fe =? -1)%Z
   then ["deltaTime uniform location not found."%string] else []).
Proof.
  frame_cases fe; cbn [cerr_of app];
    (rewrite poll_unobserved; [reflexivity | reflexivity | reflexivity]).
Qed.

Lemma frame_world (env : Env) (h : Handles) (fe : FrameEnv) (w : World) :
  let w' := world_of (frame env h fe w) in
  particles w' = particles w /\
  vbo w' = Some (ssbo w) /\
  uniforms w' = pushed_uniforms fe w /\
  ssbo w' = kernel env (pushed_uniforms fe w)
              (NUM_PARTICLES + 9 ÷ WORK_GROUP_SIZE)%Z (ssbo w) /\
  lastFrameTime w' = now fe /\
  deltaTime w' = fsub (now fe) (lastFrameTime w).
Proof.
  cbn zeta. unfold pushed_uniforms.
  frame_cases fe;
    match goal with |- context [for_each ?l ?f ?w1] =>
      destruct (poll_world (window h) l w1) as (-> & -> & -> & -> & -> & ->)
    end; repeat split.
Qed.

(** C1: what the code does.  Every iteration issues exactly one dispatch,
    and it asks for NUM_PARTICLES + 9 / WORK_GROUP_SIZE = 1000 work-groups:
    the division binds tighter than the sum.  ceil(1000 / 10) is 100. *)
Theorem dispatch_requests_1000_groups
        (env : Env) (h : Handles) (fe : FrameEnv) (w : World) :
  dispatched (trace_of (frame env h fe w)) = [1000%Z] /\
  ceil_div NUM_PARTICLES WORK_GROUP_SIZE = 100%Z.
Proof. rewrite frame_dispatched. split; reflexivity. Qed.

(** C2, the claim as stated fails: in an iteration that finds both
    uniforms the copy into the render buffer is the third step, ahead of
    the uniform pushes and the dispatch; no dispatch precedes it. *)
Lemma copy_precedes_dispatch_example :
  steps (trace_of (frame env0 h0 fe0 world0)) =
  [StepClear; StepTime; StepCopy; StepPushUniform; StepPushUniform;
   StepDispatch; StepDraw] /\
  occurs_before StepDispatch StepCopy
    (steps (trace_of (frame env0 h0 fe0 world0))) = false.
Proof. rewrite frame_steps. split; reflexivity. Qed.

(** C2, as amended.  In every iteration the steps occur in the fixed order
    clear, elapsed time, copy of the state buffer into the render buffer,
    uniform pushes, dispatch, draw: the copy comes before the dispatch of
    the same iteration, so the buffer that is drawn holds the state the
    iteration started with. *)
Theorem frame_step_order
        (env : Env) (h : Handles) (fe : FrameEnv) (w : World) :
  let t := trace_of (frame env h fe w) in
  steps t = [StepClear; StepTime; StepCopy] ++
            repeat StepPushUniform (pushes fe) ++ [StepDispatch; StepDraw] /\
  occurs_before StepCopy StepDispatch (steps t) = true /\
  occurs_before StepDispatch StepCopy (steps t) = false /\
  vbo (world_of (frame env h fe w)) = Some (ssbo w).
Proof.
  cbn zeta. rewrite frame_steps. split; [reflexivity |].
  split; [| split].
  - unfold pushes.
    now destruct (mousePosLoc_result fe =? -1)%Z, (deltaTimeLoc_result fe =? -1)%Z.
  - unfold pushes.
    now destruct (mousePosLoc_result fe =? -1)%Z, (deltaTimeLoc_result fe =? -1)%Z.
  - apply (frame_world env h fe w).
Qed.

(** C7.  In every iteration, a uniform whose location lookup answers -1 is
    reported on the error stream and not pushed, a uniform that is found is
    pushed with the current value, and in either case the iteration goes
    on: it dispatches, draws and ends normally, and the only state that
    depends on the lookups is the uniform that was or was not updated. *)
Theorem uniform_lookup_soft_fail
        (env : Env) (h : Handles) (fe : FrameEnv) (w : World) :
  let r := frame env h fe w in
  let t := trace_of r in
  (* the value is pushed exactly when the location is found *)
  flat_map uniform2f_of t =
    (if (mousePosLoc_result fe =? -1)%Z then []
     else [(mousePosLoc_result fe, glm.x (mousePos w), glm.y (mousePos w))]) /\
  flat_map uniform1f_of t =
    (if (deltaTimeLoc_result fe =? -1)%Z then []
     else [(deltaTimeLoc_result fe, fsub (now fe) (lastFrameTime w))]) /\
  (* a diagnostic is logged exactly when it is not *)
  flat_map cerr_of t =
    (if (mousePosLoc_result fe =? -1)%Z
     then ["mousePos uniform location not found."%string] else []) ++
    (if (deltaTimeLoc_result fe =? -1)%Z
     then ["deltaTime uniform location not found."%string] else []) /\
  (* the iteration continues *)
  outcome_of r = Continue tt /\
  dispatched t = [(NUM_PARTICLES + 9 ÷ WORK_GROUP_SIZE)%Z] /\
  flat_map draw_of t = [(0%Z, NUM_PARTICLES)] /\
  (* the state: only the uniforms depend on the lookups *)
  uniforms (world_of r) = pushed_uniforms fe w /\
  particles (world_of r) = particles w /\
  vbo (world_of r) = Some (ssbo w) /\
  lastFrameTime (world_of r) = now fe /\
  deltaTime (world_of r) = fsub (now fe) (lastFrameTime w).
Proof.
  cbn zeta.
  rewrite frame_uniform2f, frame_uniform1f, frame_cerr, frame_outcome,
          frame_dispatched, frame_draws.
  destruct (frame_world env h fe w) as (Hp & Hv & Hu & _ & Hl & Hd).
  repeat split; assumption.
Qed.

(** ** Composition of computations *)

Lemma silent_ret {X A} (obs : Event -> list X) (a : A) : silent obs (ret a).
Proof. intros w. reflexivity. Qed.

Lemma silent_get {X} (obs : Event -> list X) : silent obs get.
Proof. intros w. reflexivity. Qed.

Lemma silent_modify {X} (obs : Event -> list X) (f : World -> World) :
  silent obs (modify f).
Proof. intros w. reflexivity. Qed.

Lemma silent_call {X} (obs : Event -> list X) (e : Event) :
  obs e = [] -> silent obs (call e).
Proof. intros H w. cbn. now rewrite H. Qed.

Lemma silent_bind {X A B} (obs : Event -> list X) (m : M A) (f : A -> M B) :
  silent obs m -> (forall a, silent obs (f a)) -> silent obs (bind m f).
Proof.
  intros Hm Hf w. unfold bind. rewrite trace_then, flat_map_app, Hm.
  destruct (outcome_of (m w)); [apply Hf | reflexivity].
Qed.

Lemma silent_if {X A} (obs : Event -> list X) (c : bool) (m1 m2 : M A) :
  silent obs m1 -> silent obs m2 -> silent obs (if c then m1 else m2).
Proof. now destruct c. Qed.

Lemma proceeds_ret {A} (a : A) : proceeds (ret a).
Proof. intros w. now exists a. Qed.

Lemma proceeds_get : proceeds get.
Proof. intros w. now exists w. Qed.

Lemma proceeds_modify (f : World -> World) : proceeds (modify f).
Proof. intros w. now exists tt. Qed.

Lemma proceeds_call (e : Event) : proceeds (call e).
Proof. intros w. now exists tt. Qed.

Lemma proceeds_bind {A B} (m : M A) (f : A -> M B) :
  proceeds m -> (forall a, proceeds (f a)) -> proceeds (bind m f).
Proof.
  intros Hm Hf w. unfold bind. rewrite outcome_then.
  destruct (Hm w) as [a ->]. apply Hf.
Qed.

Lemma proceeds_if {A} (c : bool) (m1 m2 : M A) :
  proceeds m1 -> proceeds m2 -> proceeds (if c then m1 else m2).
Proof. now destruct c. Qed.

Ltac silent_steps :=
  repeat first
    [ apply silent_ret | apply silent_get | apply silent_modify
    | apply silent_call; reflexivity
    | apply silent_if
    | apply silent_bind; [| intro] ].

Ltac proceeds_steps :=
  repeat first
    [ apply proceeds_ret | apply proceeds_get | apply proceeds_modify
    | apply proceeds_call
    | apply proceeds_if
    | apply proceeds_bind; [| intro] ].

Ltac open_initialise :=
  unfold initialise, seed_particles, ReadShaderFile, CompileShader,
         get_compile_status, get_link_status, when;
  cbv zeta.

(** ** Setting up: lines 60-169 *)

Lemma initialise_proceeds (env : Env) (win : Z) : proceeds (initialise env win).
Proof. open_initialise. proceeds_steps. Qed.

Lemma initialise_no_barrier (env : Env) (win : Z) :
  silent barrier_of (initialise env win).
Proof. open_initialise. silent_steps. Qed.

Lemma initialise_no_draw (env : Env) (win : Z) :
  silent draw_of (initialise env win).
Proof. open_initialise. silent_steps. Qed.

(** ** The whole run *)

Lemma startup_run (env : Env) (w : World) :
  startup env w =
  Emit glfwInit
    (if glfwInit_result env then
       Emit (glfwCreateWindow 640 480 "Compute Shader Particle System")
         match glfwCreateWindow_result env with
         | None =>
             Emit (cerr "Failed to create GLFW window")
               (Emit glfwTerminate (Done (Return (-1)) w))
         | Some win =>
             Emit (glfwMakeContextCurrent win)
               (Emit glewInit
                  (if glewInit_ok env then Done (Continue win) w
                   else Emit (cerr "Failed to initialize GLEW")
                          (Done (Return (-1)) w)))
         end
     else Emit (cerr "Failed to initialize GLFW") (Done (Return (-1)) w)).
Proof.
  unfold startup, when. run_step.
  destruct (glfwInit_result env); run_step; [| reflexivity].
  destruct (glfwCreateWindow_result env) as [win |]; run_step; [| reflexivity].
  destruct (glewInit_ok env); reflexivity.
Qed.

Lemma main_loop_outcome (env : Env) (h : Handles) (frames : list FrameEnv) :
  forall w, outcome_of (main_loop env h frames w) = Continue tt.
Proof.
  induction frames as [| fe frames IH]; intros w; [reflexivity |].
  cbn [main_loop]. unfold bind at 1 2. cbn [call then_ outcome_of].
  rewrite outcome_then, frame_outcome. apply IH.
Qed.

Lemma main_loop_unobserved {X} (obs : Event -> list X)
      (env : Env) (h : Handles) (frames : list FrameEnv) :
  obs (glfwWindowShouldClose (window h)) = [] ->
  (forall fe w, flat_map obs (trace_of (frame env h fe w)) = []) ->
  forall w, flat_map obs (trace_of (main_loop env h frames w)) = [].
Proof.
  intros Hc Hf. induction frames as [| fe frames IH]; intros w.
  - cbn. now rewrite Hc.
  - cbn [main_loop]. unfold bind at 1 2. cbn [call then_ trace_of flat_map].
    rewrite Hc, trace_then, flat_map_app, Hf, frame_outcome. apply IH.
Qed.

Lemma main_loop_draws (env : Env) (h : Handles) (frames : list FrameEnv) :
  forall w,
    flat_map draw_of (trace_of (main_loop env h frames w)) =
    repeat (0%Z, NUM_PARTICLES) (List.length frames).
Proof.
  induction frames as [| fe frames IH]; intros w; [reflexivity |].
  cbn [main_loop]. unfold bind at 1 2. cbn [call then_ trace_of flat_map draw_of app].
  rewrite trace_then, flat_map_app, frame_draws, frame_outcome, IH. reflexivity.
Qed.

Lemma cleanup_trace (h : Handles) (w : World) :
  trace_of (cleanup h w) =
  [glGetError; glMemoryBarrier;
   glDeleteBuffers (particleSSBO h); glDeleteVertexArrays (particleVAO h);
   glDeleteBuffers (particleVBO h); glDeleteShader (computeShader h);
   glDeleteProgram (computeShaderProgram h); glDeleteShader (vertexShader h);
   glDeleteShader (fragmentShader h); glDeleteProgram (renderShaderProgram h);
   glfwTerminate].
Proof. reflexivity. Qed.

(* A run whose startup succeeds: startup, set-up, loop, clean-up. *)
Lemma main_started (env : Env) (frames : list FrameEnv) (w : World) (win : Z) :
  glfwInit_result env = true ->
  glfwCreateWindow_result env = Some win ->
  glewInit_ok env = true ->
  exists h w2,
    outcome_of (initialise env win w) = Continue h /\
    trace_of (main env frames w) =
      [glfwInit; glfwCreateWindow 640 480 "Compute Shader Particle System";
       glfwMakeContextCurrent win; glewInit] ++
      trace_of (initialise env win w) ++
      trace_of (main_loop env h frames (world_of (initialise env win w))) ++
      trace_of (cleanup h w2) /\
    outcome_of (main env frames w) = Continue tt.
Proof.
  intros H1 H2 H3.
  destruct (initialise_proceeds env win w) as [h Hh].
  exists h, (world_of (main_loop env h frames (world_of (initialise env win w)))).
  split; [exact Hh |].
  unfold main, bind. rewrite startup_run, H1, H2, H3.
  cbn [then_ trace_of outcome_of app].
  rewrite trace_then, outcome_then, Hh.
  rewrite trace_then, outcome_then, main_loop_outcome.
  split; reflexivity.
Qed.

Lemma after_barrier_skip (pre t : list Event) :
  flat_map barrier_of pre = [] -> after_barrier (pre ++ t) = after_barrier t.
Proof.
  induction pre as [| e pre IH]; intros H; [reflexivity |].
  destruct e; cbn in H; try discriminate; cbn [app after_barrier]; now apply IH.
Qed.

(** C3.  No iteration of the main loop issues a memory barrier, so none
    lies between a dispatch and the draw that follows it.  A run issues one
    glMemoryBarrier when its startup succeeds and none otherwise, and no
    call of the loop (its condition, clear, copy, dispatch, draw, swap,
    poll) comes after that barrier: all the iterations, one draw each, are
    over by then. *)
Theorem barrier_only_after_loop
        (env : Env) (frames : list FrameEnv) (w : World) :
  let t := trace_of (main env frames w) in
  (forall h fe w', barriers (trace_of (frame env h fe w')) = 0%nat) /\
  barriers t = (if started env then 1 else 0)%nat /\
  flat_map loop_call_of (after_barrier t) = [] /\
  flat_map draw_of t =
    (if started env then repeat (0%Z, NUM_PARTICLES) (List.length frames) else []).
Proof.
  cbn zeta. split.
  { intros h fe w'. unfold barriers. now rewrite frame_barriers. }
  unfold started, barriers.
  destruct (glfwInit_result env) eqn:H1;
    [destruct (glfwCreateWindow_result env) as [win |] eqn:H2;
       [destruct (glewInit_ok env) eqn:H3 |] |].
  - destruct (main_started env frames w win H1 H2 H3) as (h & w2 & Hh & -> & _).
    assert (Hi := initialise_no_barrier env win w).
    assert (Hl := main_loop_unobserved barrier_of env h frames eq_refl
                    (frame_barriers env h) (world_of (initialise env win w))).
    cbn [andb]. rewrite cleanup_trace. split; [| split].
    + rewrite !flat_map_app, Hi, Hl. reflexivity.
    + cbn [app after_barrier]. rewrite !after_barrier_skip by assumption.
      reflexivity.
    + rewrite !flat_map_app, (initialise_no_draw env win w), main_loop_draws.
      cbn. now rewrite app_nil_r.
  - unfold main, bind. rewrite startup_run, H1, H2, H3. repeat split.
  - unfold main, bind. rewrite startup_run, H1, H2. repeat split.
  - unfold main, bind. rewrite startup_run, H1. repeat split.
Qed.

(** C8: what the code does.  Each of the three failures ends the run at
    once with exit status -1.  When the window cannot be created GLFW is
    terminated first; when GLEW cannot be initialised the run returns
    without glfwTerminate, leaving GLFW and the window it created
    unreleased. *)
Theorem startup_failures
        (env : Env) (frames : list FrameEnv) (w : World) (win : Z) :
  let r1 := main (glfwInit_fails env) frames w in
  let r2 := main (glfwCreateWindow_fails env) frames w in
  let r3 := main (glewInit_fails env win) frames w in
  (trace_of r1 = [glfwInit; cerr "Failed to initialize GLFW"] /\
   exit_code r1 = (-1)%Z) /\
  (trace_of r2 =
     [glfwInit; glfwCreateWindow 640 480 "Compute Shader Particle System";
      cerr "Failed to create GLFW window"; glfwTerminate] /\
   exit_code r2 = (-1)%Z) /\
  (trace_of r3 =
     [glfwInit; glfwCreateWindow 640 480 "Compute Shader Particle System";
      glfwMakeContextCurrent win; glewInit; cerr "Failed to initialize GLEW"] /\
   exit_code r3 = (-1)%Z /\
   flat_map terminate_of (trace_of r3) = []).
Proof.
  cbn zeta. unfold exit_code, main, bind. rewrite !startup_run.
  repeat split.
Qed.

(** C9.  When the file at the given path cannot be opened, ReadShaderFile
    only tries to open it, reports nothing and returns the empty string;
    CompileShader, called on what was read, then hands the empty text to
    glShaderSource and compiles it.  This is what [main] does with the
    compute shader. *)
Theorem missing_shader_file
        (env : Env) (path : string) (ty : ShaderType) (win : Z) (w : World) :
  files env path = None ->
  let shader := glCreateShader_result env ty in
  ReadShaderFile env path w =
    Emit (ifstream_open path) (Done (Continue EmptyString) w) /\
  (src <- ReadShaderFile env path ;; CompileShader env src ty) w =
    Emit (ifstream_open path) (CompileShader env EmptyString ty w) /\
  (exists rest,
     trace_of (CompileShader env EmptyString ty w) =
     glCreateShader ty :: glShaderSource shader EmptyString ::
     glCompileShader shader :: rest) /\
  (if String.eqb path "compute_shader.glsl" then
     exists pre post,
       trace_of (initialise env win w) =
       pre ++
       [ifstream_open path; glCreateShader GL_COMPUTE_SHADER;
        glShaderSource (glCreateShader_result env GL_COMPUTE_SHADER) EmptyString;
        glCompileShader (glCreateShader_result env GL_COMPUTE_SHADER)] ++
       post /\
       flat_map cerr_of pre = []
   else True).
Proof.
  intros Hf. cbn zeta.
  assert (Hr : ReadShaderFile env path w =
               Emit (ifstream_open path) (Done (Continue EmptyString) w)).
  { unfold ReadShaderFile. run_step. now rewrite Hf. }
  split; [exact Hr |]. split; [| split].
  - unfold bind at 1. now rewrite Hr.
  - unfold CompileShader, get_compile_status. run_step. eexists. reflexivity.
  - destruct (String.eqb path "compute_shader.glsl") eqn:Ep; [| exact I].
    apply String.eqb_eq in Ep. subst path.
    exists [glfwSetCursorPosCallback win; clock_now]. eexists.
    split; [| reflexivity].
    open_initialise. run_step. rewrite Hf. run_step. reflexivity.
Qed.

Lemma missing_shader_file_witness :
  files env_no_files "compute_shader.glsl" = None /\
  ReadShaderFile env_no_files "compute_shader.glsl" world0 =
    Emit (ifstream_open "compute_shader.glsl") (Done (Continue EmptyString) world0) /\
  exists rest,
    trace_of (CompileShader env_no_files EmptyString GL_COMPUTE_SHADER world0) =
    glCreateShader GL_COMPUTE_SHADER :: glShaderSource 1 EmptyString ::
    glCompileShader 1 :: rest.
Proof.
  split; [reflexivity |].
  destruct (missing_shader_file env_no_files "compute_shader.glsl"
              GL_COMPUTE_SHADER 1 world0 eq_refl) as (H1 & _ & H3 & _).
  split; [exact H1 | exact H3].
Defined.

(** ** A run, call by call *)

(* One iteration on a platform that finds both uniforms and does not map
   the buffer, started from the initial state. *)
Example frame_calls :
  trace_of (frame env0 h0 fe0 world0) =
  [glClear; glPointSize (Fin 10); clock_now;
   glUseProgram 4;
   glBindBuffer GL_SHADER_STORAGE_BUFFER 6;
   glMapBuffer GL_SHADER_STORAGE_BUFFER;
   glBindBuffer GL_SHADER_STORAGE_BUFFER 0;
   glBindBuffer GL_COPY_READ_BUFFER 6;
   glBindBuffer GL_COPY_WRITE_BUFFER 8;
   glCopyBufferSubData GL_COPY_READ_BUFFER GL_COPY_WRITE_BUFFER 0 0 40000;
   glGetUniformLocation 4 "mousePos";
   glGetUniformLocation 4 "deltaTime";
   glUniform2f 0 (Fin 0) (Fin 0);
   glUniform1f 1 (fsub (Fin 0.016) (Fin 0));
   glBindBufferBase GL_SHADER_STORAGE_BUFFER 0 6;
   glDispatchCompute 1000 1 1;
   glUseProgram 5;
   glBindVertexArray 7;
   glDrawArrays 0 1000;
   glfwSwapBuffers 1;
   glfwPollEvents].
Proof.
  unfold frame, fe0, h0, env0. run_step.
  cbn [map_ok mousePosLoc_result deltaTimeLoc_result cursor_events now Z.eqb
       Pos.eqb negb].
  run_step.
  cbn [computeShaderProgram renderShaderProgram particleSSBO particleVAO
       particleVBO window world0 particles mousePos lastFrameTime deltaTime
       set_deltaTime set_lastFrameTime set_vbo set_uniforms set_ssbo
       glm.x glm.y zero2].
  repeat f_equal.
Qed.

(* A run of two iterations whose startup succeeds exits with status 0 and
   draws twice. *)
Example two_frames :
  exit_code (main env0 [fe0; fe0] world0) = 0%Z /\
  flat_map draw_of (trace_of (main env0 [fe0; fe0] world0)) =
  [(0%Z, 1000%Z); (0%Z, 1000%Z)].
Proof.
  destruct (main_started env0 [fe0; fe0] world0 1 eq_refl eq_refl eq_refl)
    as (h & w2 & Hh & Ht & Ho).
  split.
  - unfold exit_code. now rewrite Ho.
  - rewrite Ht, !flat_map_app, (initialise_no_draw env0 1 world0),
            main_loop_draws, cleanup_trace. reflexivity.
Qed.

(** * Further properties *)

(** ** Closed forms of the set-up *)

Lemma trace_emits {A} (l : list Event) (r : Run A) :
  trace_of (emits l r) = l ++ trace_of r.
Proof. induction l as [| e l IH]; cbn; [reflexivity | now rewrite IH]. Qed.

Lemma outcome_emits {A} (l : list Event) (r : Run A) :
  outcome_of (emits l r) = outcome_of r.
Proof. induction l as [| e l IH]; cbn; [reflexivity | exact IH]. Qed.

Lemma world_emits {A} (l : list Event) (r : Run A) :
  world_of (emits l r) = world_of r.
Proof. induction l as [| e l IH]; cbn; [reflexivity | exact IH]. Qed.

Lemma bind_CompileShader {B} (env : Env) (src : string) (ty : ShaderType)
      (f : Z -> M B) (w : World) :
  bind (CompileShader env src ty) f w =
  emits (compile_calls env src ty) (f (compiled env ty) w).
Proof.
  unfold CompileShader, get_compile_status, compile_calls, compiled, compile_ok.
  run_step.
  destruct (match compile_status env _ with Some s => s | None => _ end);
    reflexivity.
Qed.

Lemma bind_when2 {B} (c : bool) (a b : Event) (f : unit -> M B) (w : World) :
  bind (when c (call a ;; call b)) f w =
  emits (if c then [a; b] else []) (f tt w).
Proof. destruct c; reflexivity. Qed.

Lemma flat_map_if {X} (obs : Event -> list X) (c : bool) (l1 l2 : list Event) :
  flat_map obs (if c then l1 else l2) =
  if c then flat_map obs l1 else flat_map obs l2.
Proof. now destruct c. Qed.

Lemma if_same {X} (c : bool) (x : X) : (if c then x else x) = x.
Proof. now destruct c. Qed.

(* Run the set-up up to its undecided diagnostics. *)
Ltac open_run :=
  unfold initialise, seed_particles, ReadShaderFile, get_compile_status,
         get_link_status;
  cbv zeta;
  repeat (cbn [bind then_ call modify get ret trace_of outcome_of world_of];
          rewrite ?bind_CompileShader, ?bind_when2).

(* Read an observation off the opened run. *)
Ltac observe :=
  repeat (cbn [trace_of flat_map app];
          rewrite ?trace_emits, ?flat_map_app, ?flat_map_if);
  unfold compile_calls;
  repeat (cbn [flat_map app]; rewrite ?flat_map_app, ?flat_map_if).

Lemma initialise_outcome (env : Env) (win : Z) (w : World) :
  outcome_of (initialise env win w) = Continue (handles env win).
Proof.
  open_run. repeat (cbn [outcome_of]; rewrite ?outcome_emits). reflexivity.
Qed.

Lemma initialise_world (env : Env) (win : Z) (w : World) :
  world_of (initialise env win w) = initialised env w.
Proof.
  open_run. repeat (cbn [world_of]; rewrite ?world_emits). reflexivity.
Qed.

Lemma initialise_no_terminate (env : Env) (win : Z) :
  silent terminate_of (initialise env win).
Proof.
  intros w. open_run. observe. cbn [terminate_of app]. now rewrite !if_same.
Qed.

Lemma initialise_no_copy (env : Env) (win : Z) :
  silent copy_of (initialise env win).
Proof.
  intros w. open_run. observe. cbn [copy_of app]. now rewrite !if_same.
Qed.

Lemma initialise_no_delete (env : Env) (win : Z) :
  silent delete_shader_of (initialise env win).
Proof.
  intros w. open_run. observe. cbn [delete_shader_of app]. now rewrite !if_same.
Qed.



Lemma initialise_creates (env : Env) (win : Z) (w : World) :
  flat_map create_of (trace_of (initialise env win w)) =
  [GL_COMPUTE_SHADER; GL_VERTEX_SHADER; GL_FRAGMENT_SHADER].
Proof.
  open_run. observe. cbn [create_of app]. now rewrite !if_same.
Qed.

Lemma initialise_attaches (env : Env) (win : Z) (w : World) :
  flat_map attach_of (trace_of (initialise env win w)) =
  [(computeProgram_name env, compiled env GL_COMPUTE_SHADER);
   (renderProgram_name env, compiled env GL_VERTEX_SHADER);
   (renderProgram_name env, compiled env GL_FRAGMENT_SHADER)].
Proof.
  open_run. observe. cbn [attach_of app]. now rewrite !if_same.
Qed.

Lemma initialise_allocs (env : Env) (win : Z) (w : World) :
  flat_map alloc_of (trace_of (initialise env win w)) =
  [(GL_SHADER_STORAGE_BUFFER,
    (Z.of_nat (List.length (particles (initialised env w))) * sizeof_Particle)%Z,
    Some (particles (initialised env w)), GL_DYNAMIC_DRAW);
   (GL_ARRAY_BUFFER,
    (Z.of_nat (List.length (particles (initialised env w))) * sizeof_Particle)%Z,
    None, GL_STREAM_DRAW)].
Proof.
  open_run. observe. cbn [alloc_of app]. now rewrite !if_same.
Qed.

Lemma initialise_status_queries (env : Env) (win : Z) (w : World) :
  flat_map status_query_of (trace_of (initialise env win w)) =
  [glCreateShader_result env GL_COMPUTE_SHADER; compiled env GL_COMPUTE_SHADER;
   glCreateShader_result env GL_VERTEX_SHADER; compiled env GL_VERTEX_SHADER;
   glCreateShader_result env GL_FRAGMENT_SHADER; compiled env GL_FRAGMENT_SHADER].
Proof.
  open_run. observe. cbn [status_query_of app]. now rewrite !if_same.
Qed.

(** ** Iterations, once more *)

Ltac frame_observe fe :=
  frame_cases fe; cbn [app];
  (rewrite poll_unobserved; [reflexivity | reflexivity | reflexivity]).

Lemma frame_no_terminate (env : Env) (h : Handles) (fe : FrameEnv) (w : World) :
  flat_map terminate_of (trace_of (frame env h fe w)) = [].
Proof. frame_observe fe. Qed.

Lemma frame_no_attach (env : Env) (h : Handles) (fe : FrameEnv) (w : World) :
  flat_map attach_of (trace_of (frame env h fe w)) = [].
Proof. frame_observe fe. Qed.

Lemma frame_no_delete (env : Env) (h : Handles) (fe : FrameEnv) (w : World) :
  flat_map delete_shader_of (trace_of (frame env h fe w)) = [].
Proof. frame_observe fe. Qed.

Lemma frame_no_create (env : Env) (h : Handles) (fe : FrameEnv) (w : World) :
  flat_map create_of (trace_of (frame env h fe w)) = [].
Proof. frame_observe fe. Qed.

Lemma frame_no_status_query (env : Env) (h : Handles) (fe : FrameEnv) (w : World) :
  flat_map status_query_of (trace_of (frame env h fe w)) = [].
Proof. frame_observe fe. Qed.

Lemma frame_no_alloc (env : Env) (h : Handles) (fe : FrameEnv) (w : World) :
  flat_map alloc_of (trace_of (frame env h fe w)) = [].
Proof. frame_observe fe. Qed.

Lemma frame_copies (env : Env) (h : Handles) (fe : FrameEnv) (w : World) :
  flat_map copy_of (trace_of (frame env h fe w)) =
  [(0%Z, 0%Z, (Z.of_nat (List.length (particles w)) * sizeof_Particle)%Z)].
Proof. frame_observe fe. Qed.

Lemma frame_maps (env : Env) (h : Handles) (fe : FrameEnv) (w : World) :
  flat_map map_of (trace_of (frame env h fe w)) = [tt].
Proof. frame_observe fe. Qed.

Lemma frame_unmaps (env : Env) (h : Handles) (fe : FrameEnv) (w : World) :
  flat_map unmap_of (trace_of (frame env h fe w)) =
  if map_ok fe then [tt] else [].
Proof. frame_observe fe. Qed.

Lemma frame_prints (env : Env) (h : Handles) (fe : FrameEnv) (w : World) :
  flat_map print_of (trace_of (frame env h fe w)) =
  if map_ok fe
  then map (fun i => (Z.of_nat i, nth i (ssbo w) zeroParticle)) (seq 0 10)
  else [].
Proof. frame_observe fe. Qed.

(* The state after one more iteration. *)
Lemma main_loop_world_snoc (env : Env) (h : Handles) (fe : FrameEnv)
      (frames : list FrameEnv) :
  forall w,
    world_of (main_loop env h (frames ++ [fe]) w) =
    world_of (frame env h fe (world_of (main_loop env h frames w))).
Proof.
  induction frames as [| fe' frames IH]; intros w.
  - cbn [app main_loop]. unfold bind. cbn [call then_ world_of ret].
    rewrite world_then, frame_outcome. reflexivity.
  - rewrite <- app_comm_cons.
    change (main_loop env h (fe' :: frames ++ [fe]) w)
      with (Emit (glfwWindowShouldClose (window h))
              (then_ (frame env h fe' w)
                     (fun _ => main_loop env h (frames ++ [fe])))).
    change (main_loop env h (fe' :: frames) w)
      with (Emit (glfwWindowShouldClose (window h))
              (then_ (frame env h fe' w) (fun _ => main_loop env h frames))).
    cbn [world_of]. rewrite !world_then, !frame_outcome. apply IH.
Qed.

Lemma main_loop_particles (env : Env) (h : Handles) (frames : list FrameEnv) :
  forall w, particles (world_of (main_loop env h frames w)) = particles w.
Proof.
  induction frames as [| fe frames IH]; intros w; [reflexivity |].
  cbn [main_loop]. unfold bind at 1 2. cbn [call then_ world_of].
  rewrite world_then, frame_outcome, IH. apply (frame_world env h fe w).
Qed.

Lemma main_loop_copies (env : Env) (h : Handles) (frames : list FrameEnv) :
  forall w,
    flat_map copy_of (trace_of (main_loop env h frames w)) =
    repeat (0%Z, 0%Z, (Z.of_nat (List.length (particles w)) * sizeof_Particle)%Z)
           (List.length frames).
Proof.
  induction frames as [| fe frames IH]; intros w; [reflexivity |].
  cbn [main_loop]. unfold bind at 1 2.
  cbn [call then_ trace_of flat_map copy_of app].
  rewrite trace_then, flat_map_app, frame_copies, frame_outcome, IH.
  destruct (frame_world env h fe w) as (-> & _). reflexivity.
Qed.

(** ** Runs that start *)

Lemma started_inv (env : Env) :
  started env = true ->
  glfwInit_result env = true /\
  glfwCreateWindow_result env = Some (window_of env) /\
  glewInit_ok env = true.
Proof.
  unfold started, window_of.
  destruct (glfwInit_result env), (glfwCreateWindow_result env), (glewInit_ok env);
    cbn; intros H; try discriminate; repeat split.
Qed.

Lemma main_run (env : Env) (frames : list FrameEnv) (w : World) :
  started env = true ->
  let h := handles env (window_of env) in
  let loop := main_loop env h frames (initialised env w) in
  trace_of (main env frames w) =
    [glfwInit; glfwCreateWindow 640 480 "Compute Shader Particle System";
     glfwMakeContextCurrent (window_of env); glewInit] ++
    trace_of (initialise env (window_of env) w) ++
    trace_of loop ++ trace_of (cleanup h (world_of loop)) /\
  world_of (main env frames w) = world_of loop /\
  outcome_of (main env frames w) = Continue tt.
Proof.
  intros Hs. destruct (started_inv env Hs) as (H1 & H2 & H3). cbn zeta.
  unfold main, bind. rewrite startup_run, H1, H2, H3.
  cbn [then_ trace_of outcome_of world_of app].
  rewrite trace_then, outcome_then, world_then, initialise_outcome, initialise_world.
  rewrite trace_then, outcome_then, world_then, main_loop_outcome.
  repeat split.
Qed.

Lemma main_loop_silent {X} (obs : Event -> list X)
      (env : Env) (h : Handles) (frames : list FrameEnv) (w : World) :
  (forall win, obs (glfwWindowShouldClose win) = []) ->
  (forall fe w', flat_map obs (trace_of (frame env h fe w')) = []) ->
  flat_map obs (trace_of (main_loop env h frames w)) = [].
Proof. intros Hc Hf. apply main_loop_unobserved; [apply Hc | exact Hf]. Qed.

(** X1.  The exit status of a run is 0 when the three initialisations of
    the startup succeed and -1 otherwise: no compile or link failure, no
    missing file or uniform and no number of iterations changes it. *)
Theorem exit_status (env : Env) (frames : list FrameEnv) (w : World) :
  exit_code (main env frames w) = if started env then 0%Z else (-1)%Z.
Proof.
  destruct (started env) eqn:Hs.
  - destruct (main_run env frames w Hs) as (_ & _ & Ho).
    unfold exit_code. now rewrite Ho.
  - unfold started in Hs. unfold exit_code, main, bind. rewrite startup_run.
    destruct (glfwInit_result env); [| reflexivity].
    destruct (glfwCreateWindow_result env); [| reflexivity].
    destruct (glewInit_ok env); [discriminate | reflexivity].
Qed.

(** X2.  In a run that starts, each shader type is created once; what is
    attached to the programs, queried by main's own status checks and
    deleted at the end is the value CompileShader returned: the shader when
    it compiled, and 0 when it did not, so a shader object whose compile
    failed is neither attached nor deleted. *)
Theorem shader_handles (env : Env) (frames : list FrameEnv) (w : World) :
  started env = true ->
  let t := trace_of (main env frames w) in
  flat_map create_of t =
    [GL_COMPUTE_SHADER; GL_VERTEX_SHADER; GL_FRAGMENT_SHADER] /\
  flat_map status_query_of t =
    [glCreateShader_result env GL_COMPUTE_SHADER; compiled env GL_COMPUTE_SHADER;
     glCreateShader_result env GL_VERTEX_SHADER; compiled env GL_VERTEX_SHADER;
     glCreateShader_result env GL_FRAGMENT_SHADER; compiled env GL_FRAGMENT_SHADER] /\
  flat_map attach_of t =
    [(computeProgram_name env, compiled env GL_COMPUTE_SHADER);
     (renderProgram_name env, compiled env GL_VERTEX_SHADER);
     (renderProgram_name env, compiled env GL_FRAGMENT_SHADER)] /\
  flat_map delete_shader_of t =
    [compiled env GL_COMPUTE_SHADER; compiled env GL_VERTEX_SHADER;
     compiled env GL_FRAGMENT_SHADER].
Proof.
  intros Hs. destruct (main_run env frames w Hs) as (Ht & _). cbn zeta in *.
  rewrite Ht, cleanup_trace, !flat_map_app.
  rewrite initialise_creates, initialise_status_queries, initialise_attaches,
          (initialise_no_delete env (window_of env) w).
  rewrite (main_loop_silent create_of)
    by (first [reflexivity | apply frame_no_create]).
  rewrite (main_loop_silent status_query_of)
    by (first [reflexivity | apply frame_no_status_query]).
  rewrite (main_loop_silent attach_of)
    by (first [reflexivity | apply frame_no_attach]).
  rewrite (main_loop_silent delete_shader_of)
    by (first [reflexivity | apply frame_no_delete]).
  repeat split.
Qed.

Lemma shader_handles_witness :
  started env_no_compile = true /\
  flat_map attach_of (trace_of (main env_no_compile [fe_a] world0)) =
    [(4, 0); (5, 0); (5, 0)]%Z /\
  flat_map delete_shader_of (trace_of (main env_no_compile [fe_a] world0)) =
    [0; 0; 0]%Z.
Proof.
  split; [reflexivity |].
  destruct (shader_handles env_no_compile [fe_a] world0 eq_refl)
    as (_ & _ & Ha & Hd).
  split; [exact Ha | exact Hd].
Defined.


(** X4.  In a run that starts, glfwTerminate is called exactly once, and it
    is the last call of the run. *)
Theorem terminate_is_last (env : Env) (frames : list FrameEnv) (w : World) :
  started env = true ->
  exists pre,
    trace_of (main env frames w) = pre ++ [glfwTerminate] /\
    flat_map terminate_of pre = [].
Proof.
  intros Hs. destruct (main_run env frames w Hs) as (Ht & _). cbn zeta in Ht.
  set (h := handles env (window_of env)) in *.
  exists ([glfwInit; glfwCreateWindow 640 480 "Compute Shader Particle System";
           glfwMakeContextCurrent (window_of env); glewInit] ++
          trace_of (initialise env (window_of env) w) ++
          trace_of (main_loop env h frames (initialised env w)) ++
          [glGetError; glMemoryBarrier;
           glDeleteBuffers (particleSSBO h); glDeleteVertexArrays (particleVAO h);
           glDeleteBuffers (particleVBO h); glDeleteShader (computeShader h);
           glDeleteProgram (computeShaderProgram h); glDeleteShader (vertexShader h);
           glDeleteShader (fragmentShader h);
           glDeleteProgram (renderShaderProgram h)]).
  split.
  - rewrite Ht, cleanup_trace, <- !app_assoc. reflexivity.
  - rewrite !flat_map_app, (initialise_no_terminate env (window_of env) w).
    rewrite (main_loop_silent terminate_of)
      by (first [reflexivity | apply frame_no_terminate]).
    reflexivity.
Qed.

Lemma terminate_is_last_witness :
  started env0 = true /\
  exists pre,
    trace_of (main env0 [fe0; fe0] world0) = pre ++ [glfwTerminate] /\
    flat_map terminate_of pre = [].
Proof.
  split; [reflexivity |].
  exact (terminate_is_last env0 [fe0; fe0] world0 eq_refl).
Defined.

Lemma initialised_particles (env : Env) :
  particles (initialised env world0) = seeded env.
Proof.
  unfold initialised, seeded, seed_particles, modify. cbv zeta.
  cbn [world_of particles set_vbo set_ssbo set_particles set_deltaTime
       set_lastFrameTime world0].
  reflexivity.
Qed.

Lemma seeded_length (env : Env) :
  List.length (seeded env) = Z.to_nat NUM_PARTICLES.
Proof.
  rewrite seeded_eq, init_particles_length. unfold particles0. apply repeat_length.
Qed.

(** X5.  In a run that starts, both buffers are allocated with
    NUM_PARTICLES * sizeof(Particle) = 40000 bytes, the storage buffer is
    filled with the seeded particles and the vertex buffer is left without
    data; every iteration then copies exactly those 40000 bytes from offset
    0 to offset 0, so the copy stays inside both buffers. *)
Theorem buffer_sizes (env : Env) (frames : list FrameEnv) :
  started env = true ->
  let t := trace_of (main env frames world0) in
  flat_map alloc_of t =
    [(GL_SHADER_STORAGE_BUFFER, 40000%Z, Some (seeded env), GL_DYNAMIC_DRAW);
     (GL_ARRAY_BUFFER, 40000%Z, None, GL_STREAM_DRAW)] /\
  flat_map copy_of t = repeat (0%Z, 0%Z, 40000%Z) (List.length frames).
Proof.
  intros Hs. destruct (main_run env frames world0 Hs) as (Ht & _). cbn zeta in *.
  rewrite Ht, cleanup_trace, !flat_map_app.
  rewrite initialise_allocs, (initialise_no_copy env (window_of env) world0).
  rewrite (main_loop_silent alloc_of)
    by (first [reflexivity | apply frame_no_alloc]).
  rewrite main_loop_copies, initialised_particles, seeded_length.
  cbn [flat_map alloc_of copy_of app]. rewrite app_nil_r.
  split; reflexivity.
Qed.

Lemma buffer_sizes_witness :
  started env0 = true /\
  flat_map copy_of (trace_of (main env0 [fe0; fe0] world0)) =
  [(0, 0, 40000); (0, 0, 40000)]%Z.
Proof.
  split; [reflexivity |].
  exact (proj2 (buffer_sizes env0 [fe0; fe0] eq_refl)).
Defined.

(** X6.  The particle vector in CPU memory is written by the seeding loop
    only: at the end of a run that starts it holds the seeded particles,
    whatever the iterations and the compute kernel did, and a run that does
    not start leaves it as it was constructed. *)
Theorem particles_written_once (env : Env) (frames : list FrameEnv) :
  particles (world_of (main env frames world0)) =
  if started env then seeded env else particles0.
Proof.
  destruct (started env) eqn:Hs.
  - destruct (main_run env frames world0 Hs) as (_ & Hw & _). cbn zeta in Hw.
    now rewrite Hw, main_loop_particles, initialised_particles.
  - unfold started in Hs. unfold main, bind. rewrite startup_run.
    destruct (glfwInit_result env); [| reflexivity].
    destruct (glfwCreateWindow_result env); [| reflexivity].
    destruct (glewInit_ok env); [discriminate | reflexivity].
Qed.

(** X7.  The render buffer lags the compute buffer by one dispatch: after
    one more iteration the vertex buffer holds what the storage buffer
    held before that iteration, and the storage buffer holds the kernel's
    result on it under the uniforms as pushed in that iteration.  With no
    iteration at all the state is untouched. *)
Theorem render_lags_compute
        (env : Env) (h : Handles) (frames : list FrameEnv) (fe : FrameEnv)
        (w : World) :
  let before := world_of (main_loop env h frames w) in
  let after := world_of (main_loop env h (frames ++ [fe]) w) in
  vbo after = Some (ssbo before) /\
  ssbo after = kernel env (pushed_uniforms fe before)
                 (NUM_PARTICLES + 9 ÷ WORK_GROUP_SIZE)%Z (ssbo before) /\
  world_of (main_loop env h [] w) = w.
Proof.
  cbn zeta. rewrite main_loop_world_snoc.
  destruct (frame_world env h fe (world_of (main_loop env h frames w)))
    as (_ & Hv & _ & Hs & _).
  repeat split; assumption.
Qed.

(** X8.  When the kernel leaves the buffer as it is, any number of
    iterations leaves the storage buffer as it was, and from the first
    iteration on the vertex buffer is equal to it: the copy, the read-back,
    the uniform updates and the draw do not alter particle data. *)
Theorem idle_kernel_keeps_buffers
        (env : Env) (h : Handles) (frames : list FrameEnv) (fe : FrameEnv)
        (w : World) :
  (forall u n ps, kernel env u n ps = ps) ->
  ssbo (world_of (main_loop env h (frames ++ [fe]) w)) = ssbo w /\
  vbo (world_of (main_loop env h (frames ++ [fe]) w)) = Some (ssbo w).
Proof.
  intros Hk.
  assert (Hs : forall fs, ssbo (world_of (main_loop env h fs w)) = ssbo w).
  { intros fs. induction fs as [| f fs IH] using rev_ind; [reflexivity |].
    rewrite main_loop_world_snoc.
    destruct (frame_world env h f (world_of (main_loop env h fs w)))
      as (_ & _ & _ & -> & _).
    now rewrite Hk. }
  split; [apply Hs |].
  rewrite main_loop_world_snoc.
  destruct (frame_world env h fe (world_of (main_loop env h frames w)))
    as (_ & -> & _).
  now rewrite Hs.
Qed.

Lemma idle_kernel_keeps_buffers_witness :
  ssbo (world_of (main_loop env0 h0 ([fe_a] ++ [fe_b]) (initialised env0 world0))) =
    ssbo (initialised env0 world0) /\
  vbo (world_of (main_loop env0 h0 ([fe_a] ++ [fe_b]) (initialised env0 world0))) =
    Some (ssbo (initialised env0 world0)).
Proof.
  exact (idle_kernel_keeps_buffers env0 h0 [fe_a] fe_b (initialised env0 world0)
           (fun _ _ _ => eq_refl)).
Defined.

(** X9.  The elapsed time of an iteration is the difference between its
    clock reading and the clock reading of the iteration before it,
    whatever came earlier; this is the value pushed as deltaTime when the
    uniform is found. *)
Theorem delta_time_is_last_interval
        (env : Env) (h : Handles) (frames : list FrameEnv) (fa fb : FrameEnv)
        (w : World) :
  let before := world_of (main_loop env h (frames ++ [fa]) w) in
  let after := world_of (main_loop env h ((frames ++ [fa]) ++ [fb]) w) in
  deltaTime after = fsub (now fb) (now fa) /\
  lastFrameTime after = now fb /\
  flat_map uniform1f_of (trace_of (frame env h fb before)) =
    (if (deltaTimeLoc_result fb =? -1)%Z then []
     else [(deltaTimeLoc_result fb, fsub (now fb) (now fa))]).
Proof.
  cbn zeta. rewrite frame_uniform1f, (main_loop_world_snoc env h fb).
  destruct (frame_world env h fb (world_of (main_loop env h (frames ++ [fa]) w)))
    as (_ & _ & _ & _ & Hl & Hd).
  rewrite Hl, Hd, (main_loop_world_snoc env h fa).
  destruct (frame_world env h fa (world_of (main_loop env h frames w)))
    as (_ & _ & _ & _ & -> & _).
  repeat split.
Qed.

(** ** The pointer callback, once more *)

Lemma mouse_callback_pos (win : Z) (ev : CursorEvent) (w : World) :
  mousePos (world_of (mouse_callback win ev w)) =
  glm.mkvec2
    (fsub (fmul (fdiv (xpos ev) (of_int (fb_width ev))) (Fin 2)) (Fin 1))
    (fsub (Fin 1) (fmul (fdiv (ypos ev) (of_int (fb_height ev))) (Fin 2))).
Proof. reflexivity. Qed.

Lemma unit_interval_quotient (x d : R) :
  (0 < d)%R -> (0 <= x <= d)%R -> (0 <= x / d <= 1)%R.
Proof.
  intros Hd Hx.
  assert (E : (x = x / d * d)%R) by (field; lra).
  set (q := (x / d)%R) in *. nra.
Qed.

(** X10.  A pointer inside the surface (0 <= x <= width, 0 <= y <= height,
    both dimensions positive) is stored as a finite point of the square
    [-1,1] x [-1,1]. *)
Theorem mouse_callback_in_range
        (win : Z) (w : World) (px py : R) (width height : Z) :
  (0 < width)%Z -> (0 < height)%Z ->
  (0 <= px <= IZR width)%R -> (0 <= py <= IZR height)%R ->
  exists a b,
    mousePos (world_of
      (mouse_callback win (mkCursorEvent (Fin px) (Fin py) width height) w)) =
    glm.mkvec2 (Fin a) (Fin b) /\
    (-1 <= a <= 1)%R /\ (-1 <= b <= 1)%R.
Proof.
  intros Hw Hh Hx Hy.
  assert (Hw' : (0 < IZR width)%R) by (apply (IZR_lt 0); exact Hw).
  assert (Hh' : (0 < IZR height)%R) by (apply (IZR_lt 0); exact Hh).
  rewrite mouse_callback_pos. unfold of_int. cbn [xpos ypos fb_width fb_height].
  rewrite !fdiv_Fin by lra. cbn [fmul fsub fadd fneg].
  pose proof (unit_interval_quotient px (IZR width) Hw' Hx).
  pose proof (unit_interval_quotient py (IZR height) Hh' Hy).
  eexists. eexists. split; [reflexivity |]. split; lra.
Qed.

Lemma mouse_callback_in_range_witness :
  exists a b,
    mousePos (world_of
      (mouse_callback 1 (mkCursorEvent (Fin 100) (Fin 480) 640 480) world0)) =
    glm.mkvec2 (Fin a) (Fin b) /\
    (-1 <= a <= 1)%R /\ (-1 <= b <= 1)%R.
Proof.
  apply (mouse_callback_in_range 1 world0 100 480 640 480);
    [reflexivity | reflexivity | split; lra | split; lra].
Defined.

(** X11.  The callback divides by the framebuffer size without a guard:
    when glfwGetFramebufferSize reports 0 x 0, the stored coordinates are
    not finite: NaN for a coordinate that is 0, an infinity otherwise
    (of the sign of x for the first, of the opposite sign of y for the
    second). *)
Theorem mouse_callback_zero_framebuffer (win : Z) (w : World) (px py : R) :
  mousePos (world_of
    (mouse_callback win (mkCursorEvent (Fin px) (Fin py) 0 0) w)) =
  glm.mkvec2 (if Rzero px then NaN else Inf (Rneg px))
             (if Rzero py then NaN else Inf (negb (Rneg py))).
Proof.
  rewrite mouse_callback_pos. unfold of_int. cbn [xpos ypos fb_width fb_height fdiv].
  rewrite (Rzero_true 0) by reflexivity.
  destruct (Rzero px), (Rzero py); cbn [fmul fsub fadd fneg];
    rewrite ?(Rzero_false 2) by lra; rewrite ?(Rneg_false 2) by lra;
    rewrite ?xorb_false_r; reflexivity.
Qed.

Lemma poll_world_snoc (win : Z) (ev : CursorEvent) (l : list CursorEvent) :
  forall w,
    world_of (for_each (l ++ [ev]) (mouse_callback win) w) =
    world_of (mouse_callback win ev (world_of (for_each l (mouse_callback win) w))).
Proof.
  induction l as [| ev' l IH]; intros w.
  - cbn [app for_each]. unfold bind at 1. rewrite world_then. reflexivity.
  - rewrite <- app_comm_cons.
    change (for_each (ev' :: l ++ [ev]) (mouse_callback win) w)
      with (then_ (mouse_callback win ev' w)
                  (fun _ => for_each (l ++ [ev]) (mouse_callback win))).
    change (for_each (ev' :: l) (mouse_callback win) w)
      with (then_ (mouse_callback win ev' w)
                  (fun _ => for_each l (mouse_callback win))).
    rewrite !world_then.
    change (outcome_of (mouse_callback win ev' w)) with (@Continue unit tt).
    apply IH.
Qed.

(** X12.  After glfwPollEvents has delivered its cursor events, mousePos is
    what the last of them alone gives, whatever came before it; when no
    event is delivered mousePos keeps its value. *)
Theorem last_cursor_event_wins
        (win : Z) (l : list CursorEvent) (ev : CursorEvent) (w w' : World) :
  mousePos (world_of (for_each (l ++ [ev]) (mouse_callback win) w)) =
  mousePos (world_of (mouse_callback win ev w')) /\
  mousePos (world_of (for_each [] (mouse_callback win) w)) = mousePos w.
Proof.
  split; [| reflexivity].
  now rewrite poll_world_snoc, !mouse_callback_pos.
Qed.

(** ** Seeding, once more *)




Lemma init_particles_snd (ps : list Particle) :
  forall eng, snd (init_particles eng ps) = skip eng (6 * List.length ps).
Proof.
  induction ps as [| p ps IH]; intros eng.
  - cbn [init_particles snd List.length]. now rewrite Nat.mul_0_r, skip_0.
  - rewrite init_particles_cons. cbn [snd List.length].
    rewrite IH, skip_skip.
    now replace (6 * List.length ps + 6)%nat with (6 * S (List.length ps))%nat by lia.
Qed.

(** X14.  The seeding loop draws exactly six variates for each particle,
    and overwrites every field: its result depends on how many particles
    the vector holds, not on what they held. *)
Theorem seeding_draws_and_overwrites
        (eng : mt19937) (ps ps' : list Particle) :
  List.length ps' = List.length ps ->
  fst (init_particles eng ps') = fst (init_particles eng ps) /\
  snd (init_particles eng ps) = skip eng (6 * List.length ps).
Proof.
  intros Hl. split; [| apply init_particles_snd].
  revert eng ps' Hl. induction ps as [| p ps IH]; intros eng ps' Hl.
  - destruct ps'; [reflexivity | discriminate].
  - destruct ps' as [| p' ps']; [discriminate |].
    rewrite !init_particles_cons. cbn [fst]. rewrite !init_particle_fst.
    f_equal. apply IH. now injection Hl.
Qed.

Lemma seeding_draws_and_overwrites_witness :
  fst (init_particles half_engine [zeroParticle]) =
  fst (init_particles half_engine
         [mkParticle zero2 zero2 zero4 (Fin 7) (Fin 9)]) /\
  snd (init_particles half_engine
         [mkParticle zero2 zero2 zero4 (Fin 7) (Fin 9)]) =
  skip half_engine (6 * 1).
Proof.
  exact (seeding_draws_and_overwrites half_engine
           [mkParticle zero2 zero2 zero4 (Fin 7) (Fin 9)] [zeroParticle] eq_refl).
Defined.

(** ** The debug read-back and CompileShader *)

(** X15.  Every iteration maps the storage buffer once.  When the mapping
    succeeds it prints the first ten particles as the buffer holds them
    before this iteration's dispatch, and unmaps the buffer once; when it
    fails it prints nothing and does not unmap. *)
Theorem debug_read_back
        (env : Env) (h : Handles) (fe : FrameEnv) (w : World) :
  let t := trace_of (frame env h fe w) in
  flat_map map_of t = [tt] /\
  flat_map unmap_of t = (if map_ok fe then [tt] else []) /\
  flat_map print_of t =
    (if map_ok fe
     then map (fun i => (Z.of_nat i, nth i (ssbo w) zeroParticle)) (seq 0 10)
     else []).
Proof.
  cbn zeta. now rewrite frame_maps, frame_unmaps, frame_prints.
Qed.


(** X17.  On a platform where every compile and link status query answers
    true, the set-up writes nothing to the error stream, whatever the
    shader files hold. *)
Theorem quiet_set_up (env : Env) (win : Z) (w : World) :
  (forall shader, compile_status env shader = Some true) ->
  (forall program, link_status env program = Some true) ->
  flat_map cerr_of (trace_of (initialise env win w)) = [].
Proof.
  intros Hc Hl. open_run. observe. unfold compile_ok.
  rewrite !Hc, !Hl. reflexivity.
Qed.

Lemma quiet_set_up_witness :
  flat_map cerr_of (trace_of (initialise env0 1 world0)) = [].
Proof.
  apply (quiet_set_up env0 1 world0); intros; reflexivity.
Defined.
